(** * LoadFlare: a shallow embedding of [load_flare.py] and [multi_load_flare.py]

    The two scripts replay curl commands through a thread pool and tally the
    results in four counters.  The embedding follows the Python text:

    - Python [int] values are [Z]; [str] values are [string] (stdout is read
      as ASCII text); [None] is [option]'s [None].
    - A call that may raise returns a [py_result].
    - The standard library and the outside world are parameters of a
      [Section]: [shlex.split], [int()] on a string, [subprocess.run], and
      the order in which [as_completed] yields the futures.
    - [print] is modelled by the list of the messages that matter to the
      control flow (errors and warnings); timestamps, durations and the
      elapsed wall-clock time are not part of the model. *)

From Stdlib Require Import ZArith List String Ascii Bool Arith Lia Permutation.
Import ListNotations.

Open Scope string_scope.
Open Scope Z_scope.

(** ** Python values shared by both scripts *)

Inductive exn : Type :=
| FileNotFoundError
| IndexError
| ValueError (msg : string)
| OtherException (msg : string).

Inductive py_result (A : Type) : Type :=
| Ok (a : A)
| Raise (e : exn).

Arguments Ok {A} a.
Arguments Raise {A} e.

(** What [subprocess.run(argv, capture_output=True, text=True, check=False)]
    does: it returns a completed process or raises. *)
Inductive proc_outcome : Type :=
| Completed (returncode : Z) (stdout stderr : string)
| ProcRaised (e : exn).

(** The four counters of [main]. *)
Record counters : Type := mkCounters {
  success_count : Z;
  client_error_count : Z;
  server_error_count : Z;
  other_failure_count : Z
}.

Definition zero_counters : counters := mkCounters 0 0 0 0.

Inductive outcome_class : Type := Success | ClientError | ServerError | OtherFailure.

(** [x_count += 1] for the counter of class [k]. *)
Definition bump (k : outcome_class) (c : counters) : counters :=
  match k with
  | Success => mkCounters (success_count c + 1) (client_error_count c)
                          (server_error_count c) (other_failure_count c)
  | ClientError => mkCounters (success_count c) (client_error_count c + 1)
                              (server_error_count c) (other_failure_count c)
  | ServerError => mkCounters (success_count c) (client_error_count c)
                              (server_error_count c + 1) (other_failure_count c)
  | OtherFailure => mkCounters (success_count c) (client_error_count c)
                               (server_error_count c) (other_failure_count c + 1)
  end.

Definition counters_sum (c : counters) : Z :=
  success_count c + client_error_count c + server_error_count c + other_failure_count c.

(** The final summary: the total that is printed and the four counters. *)
Record report : Type := mkReport {
  total_attempted : Z;
  counts_by_class : counters
}.

(** Messages printed on the paths that end or alter a run. *)
Inductive message : Type :=
| ErrMustStartWithCurl (cmd : string)
| ErrParsing (cmd : string)
| ErrNoValidArguments (cmd : string)
| WarnInvalidNumber (arg cmd : string)
| WarnMissingValue (arg cmd : string)
| WarnConcurrencyIgnored (arg cmd : string)
| MsgNoValidCommands
| MsgFutureError.

(** How [main] ends: it returns early after a message, an exception escapes
    it, or it prints the final summary. *)
Inductive run_end : Type :=
| Returned (m : message)
| Uncaught (e : exn)
| Summary (r : report).

(** Everything observable of one call of [main]. *)
Record run : Type := mkRun {
  printed : list message;
  max_workers : option Z;
  submitted : list (Z * list string);
  executed : list (list string);
  finish : run_end
}.

(** ** Strings *)

Definition http_code_format : string := "%{http_code}" ++ String (ascii_of_nat 10) "".

Definition newline : ascii := ascii_of_nat 10.

(** [str.isspace] on an ASCII character. *)
Definition is_space (c : ascii) : bool :=
  let n := nat_of_ascii c in
  ((9 <=? n) && (n <=? 13) || (28 <=? n) && (n <=? 32))%nat.

Definition is_digit (c : ascii) : bool :=
  let n := nat_of_ascii c in ((48 <=? n) && (n <=? 57))%nat.

Fixpoint lstrip (s : string) : string :=
  match s with
  | String c s' => if is_space c then lstrip s' else s
  | EmptyString => EmptyString
  end.

Fixpoint string_rev_onto (s acc : string) : string :=
  match s with
  | String c s' => string_rev_onto s' (String c acc)
  | EmptyString => acc
  end.

Definition string_rev (s : string) : string := string_rev_onto s EmptyString.

Definition rstrip (s : string) : string := string_rev (lstrip (string_rev s)).

(** [s.strip()] *)
Definition strip (s : string) : string := rstrip (lstrip s).

(** [s.split(sep)] for a one-character separator: never the empty list. *)
Fixpoint split_on (sep : ascii) (s : string) : list string :=
  match s with
  | EmptyString => [EmptyString]
  | String c s' =>
      if Ascii.eqb c sep then EmptyString :: split_on sep s'
      else match split_on sep s' with
           | l :: ls => String c l :: ls
           | [] => [String c EmptyString]
           end
  end.

(** [s.split('\n')] *)
Definition split_lines (s : string) : list string := split_on newline s.

Fixpoint all_digits (s : string) : bool :=
  match s with
  | EmptyString => true
  | String c s' => is_digit c && all_digits s'
  end.

(** [re.fullmatch(r'\d+', s)] on ASCII text. *)
Definition fullmatch_digits (s : string) : bool :=
  match s with
  | EmptyString => false
  | _ => all_digits s
  end.

Fixpoint int_of_digits_from (acc : Z) (s : string) : Z :=
  match s with
  | EmptyString => acc
  | String c s' => int_of_digits_from (10 * acc + (Z.of_nat (nat_of_ascii c) - 48)) s'
  end.

(** [int(s)] for a string of decimal digits. *)
Definition int_of_digits (s : string) : Z := int_of_digits_from 0 s.

(** [s.startswith('-')] *)
Definition startswith_dash (s : string) : bool :=
  match s with
  | String c _ => Ascii.eqb c "-"%char
  | EmptyString => false
  end.

(** [x in l] for a list of strings. *)
Definition contains (x : string) (l : list string) : bool :=
  existsb (String.eqb x) l.

(** [sep.join(l)] *)
Fixpoint join (sep : string) (l : list string) : string :=
  match l with
  | [] => EmptyString
  | [x] => x
  | x :: rest => x ++ sep ++ join sep rest
  end.

(** The "Response Status" lines and their companions that [execute_curl]
    prints for one request. *)
Inductive log_line : Type :=
| StatusCorrect
| StatusClientError
| StatusServerError
| StatusOtherHttp
| HttpStatusCode (code : Z)
| StatusErrorHttp (code : Z)
| CurlExitCode (returncode : Z)
| StatusSuccessNoCode
| StatusErrorCurlNoCode (returncode : Z)
| StatusErrorCurl (returncode : Z)
| HttpStatusCodeAfterError (code : Z)
| StatusCommandNotFound
| StatusUnexpectedException.

(** A [dict] with string keys, as the list of its items in insertion
    order. *)
Fixpoint dict_get (d : list (string * Z)) (key : string) (default : Z) : Z :=
  match d with
  | [] => default
  | (k, v) :: rest => if (k =? key)%string then v else dict_get rest key default
  end.

(** [d[key] = value] *)
Fixpoint dict_set (d : list (string * Z)) (key : string) (value : Z) : list (string * Z) :=
  match d with
  | [] => [(key, value)]
  | (k, v) :: rest =>
      if (k =? key)%string then (k, value) :: rest else (k, v) :: dict_set rest key value
  end.

(** ** The thread pool *)

(** [ThreadPoolExecutor(max_workers=n)]: the constructor raises [ValueError]
    when [n <= 0]. *)
Definition ThreadPoolExecutor (n : Z) : py_result Z :=
  if n <=? 0 then Raise (ValueError "max_workers must be greater than 0")
  else Ok n.

(** [range(a, b)] *)
Definition range (a b : Z) : list Z :=
  map (fun i => a + Z.of_nat i) (seq 0 (Z.to_nat (b - a))).

Fixpoint remove_nth {A : Type} (i : nat) (l : list A) : list A :=
  match l with
  | [] => []
  | x :: l' => match i with
               | O => l'
               | S i' => x :: remove_nth i' l'
               end
  end.

(** [as_completed(futures)] yields every future once, in an order the
    scheduler decides: at step [step] the pending future number
    [sched step mod length pending] is the next one to complete. *)
Fixpoint complete {A : Type} (sched : nat -> nat) (step fuel : nat)
    (pending : list A) : list A :=
  match fuel with
  | O => []
  | S fuel' =>
      match pending with
      | [] => []
      | p0 :: _ =>
          let i := (sched step mod List.length pending)%nat in
          nth i pending p0 :: complete sched (S step) fuel' (remove_nth i pending)
      end
  end.

Definition as_completed {A : Type} (sched : nat -> nat) (futures : list A) : list A :=
  complete sched 0 (List.length futures) futures.

(** The argument lists handed to [subprocess.run], one per call of
    [execute_curl] that got as far as the call. *)
Fixpoint started (argvs : list (py_result (list string))) : list (list string) :=
  match argvs with
  | [] => []
  | Ok argv :: rest => argv :: started rest
  | Raise _ :: rest => started rest
  end.

(** One "An error occurred while processing a request future" line per
    future whose [result()] raised. *)
Fixpoint future_errors {A : Type} (completed : list (py_result A)) : list message :=
  match completed with
  | [] => []
  | Ok _ :: rest => future_errors rest
  | Raise _ :: rest => MsgFutureError :: future_errors rest
  end.

(** ** load_flare.py *)

Module LoadFlare.

(** [[command_args[0], '-w', '%{http_code}\n'] + command_args[1:]] *)
Definition modified_command_args (command_args : list string)
    : py_result (list string) :=
  match command_args with
  | [] => Raise IndexError
  | a0 :: rest => Ok (a0 :: "-w" :: http_code_format :: rest)
  end.

(** The status code read from the last line of the stripped stdout. *)
Definition http_status_code (stdout : string) : option Z :=
  let output_lines := split_lines (strip stdout) in
  let last_line := last output_lines EmptyString in
  if fullmatch_digits last_line then Some (int_of_digits last_line) else None.

(** [execute_curl]'s [(return_code, http_status_code)]; the duration is left
    out.  The argument list is built before the [try], so an [IndexError]
    there leaves the function; both [except] clauses return [(-1, None)]. *)
Definition execute_curl (subprocess_run : list string -> proc_outcome)
    (command_args : list string) : py_result (Z * option Z) :=
  match modified_command_args command_args with
  | Raise e => Raise e
  | Ok argv =>
      match subprocess_run argv with
      | Completed returncode stdout _ => Ok (returncode, http_status_code stdout)
      | ProcRaised FileNotFoundError => Ok (-1, None)
      | ProcRaised _ => Ok (-1, None)
      end
  end.

(** The body of [for future in as_completed(futures)]. *)
Definition collect (c : counters) (future : py_result (Z * option Z)) : counters :=
  match future with
  | Ok (return_code, status) =>
      match return_code =? 0, status with
      | true, Some http_status_code =>
          if (200 <=? http_status_code) && (http_status_code <? 400) then bump Success c
          else if (400 <=? http_status_code) && (http_status_code <? 500) then bump ClientError c
          else if (500 <=? http_status_code) && (http_status_code <? 600) then bump ServerError c
          else bump OtherFailure c
      | _, _ => bump OtherFailure c
      end
  | Raise _ => bump OtherFailure c
  end.

(** The response body that [execute_curl] prints: the stripped stdout
    without its last line when that line is the status code. *)
Definition actual_stdout (stdout : string) : string :=
  let output_lines := split_lines (strip stdout) in
  match output_lines with
  | [] => EmptyString
  | _ :: _ =>
      if fullmatch_digits (last output_lines EmptyString)
      then join (String newline EmptyString) (removelast output_lines)
      else strip stdout
  end.

(** The status lines of the per-request report of a completed process. *)
Definition response_status (returncode : Z) (status : option Z) : list log_line :=
  match returncode =? 0, status with
  | true, Some http_status_code =>
      if (200 <=? http_status_code) && (http_status_code <? 400)
      then [StatusCorrect; HttpStatusCode http_status_code]
      else [StatusErrorHttp http_status_code]
  | false, Some http_status_code =>
      [StatusErrorHttp http_status_code; CurlExitCode returncode]
  | true, None => [StatusSuccessNoCode]
  | false, None => [StatusErrorCurlNoCode returncode]
  end.

(** The status lines of all three ways [execute_curl] can end. *)
Definition execute_curl_report (outcome : proc_outcome) : list log_line :=
  match outcome with
  | Completed returncode stdout _ => response_status returncode (http_status_code stdout)
  | ProcRaised FileNotFoundError => [StatusCommandNotFound]
  | ProcRaised _ => [StatusUnexpectedException]
  end.

Section Main.

Variable shlex_split : string -> option (list string).
Variable subprocess_run : Z -> list string -> proc_outcome.
Variable sched : nat -> nat.

Definition early_return (m : message) : run :=
  mkRun [m] None [] [] (Returned m).

(** [main], after [argparse] has produced [curl_command], [requests] and
    [concurrency]. *)
Definition main (curl_command : string) (requests concurrency : Z) : run :=
  match shlex_split curl_command with
  | None => early_return (ErrParsing curl_command)
  | Some command_args =>
      match command_args with
      | [] => early_return (ErrMustStartWithCurl curl_command)
      | a0 :: _ =>
          if negb (a0 =? "curl")%string then early_return (ErrMustStartWithCurl curl_command)
          else
            match ThreadPoolExecutor concurrency with
            | Raise e => mkRun [] None [] [] (Uncaught e)
            | Ok workers =>
                let nums := range 1 (requests + 1) in
                let futures :=
                  map (fun i => execute_curl (subprocess_run i) command_args) nums in
                let completed := as_completed sched futures in
                let counts := fold_left collect completed zero_counters in
                mkRun (future_errors completed)
                      (Some workers)
                      (map (fun i => (i, command_args)) nums)
                      (started (map (fun _ => modified_command_args command_args) nums))
                      (Summary (mkReport requests counts))
            end
      end
  end.

End Main.

End LoadFlare.

(** ** multi_load_flare.py *)

Module MultiLoadFlare.

(** The loop [for arg in command_args[1:]] of [execute_curl], with its
    [skip_next] flag; [acc] is [modified_command_args] so far. *)
Fixpoint copy_arguments (skip_next : bool) (args acc : list string) : list string :=
  match args with
  | [] => acc
  | arg :: rest =>
      if skip_next then copy_arguments false rest acc
      else if (arg =? "-w")%string || (arg =? "--write-out")%string
           then copy_arguments true rest acc
           else copy_arguments false rest (acc ++ [arg])%list
  end.

Definition modified_command_args (command_args : list string)
    : py_result (list string) :=
  match command_args with
  | [] => Raise IndexError
  | a0 :: rest =>
      let m := [a0] in
      let m := if negb (contains "-s" command_args) && negb (contains "--silent" command_args)
               then (m ++ ["-s"])%list else m in
      let m := if negb (contains "-L" command_args) && negb (contains "--location" command_args)
               then (m ++ ["-L"])%list else m in
      let m := (m ++ ["-w"; http_code_format])%list in
      Ok (copy_arguments false rest m)
  end.

(** [re.search(r'(\d{3})\n?$', actual_stdout)] on the stripped stdout: the
    stripped text does not end in a newline, so the pattern matches exactly
    when its last three characters are digits, and the group is those. *)
Definition http_status_code (stdout : string) : option Z :=
  let actual_stdout := strip stdout in
  let n := String.length actual_stdout in
  if (3 <=? n)%nat then
    let group1 := substring (n - 3) 3 actual_stdout in
    if all_digits group1 then Some (int_of_digits group1) else None
  else None.

Definition execute_curl (subprocess_run : list string -> proc_outcome)
    (command_args : list string) : py_result (Z * option Z) :=
  match modified_command_args command_args with
  | Raise e => Raise e
  | Ok argv =>
      match subprocess_run argv with
      | Completed returncode stdout _ => Ok (returncode, http_status_code stdout)
      | ProcRaised FileNotFoundError => Ok (-1, None)
      | ProcRaised _ => Ok (-1, None)
      end
  end.

(** The body of [for future in as_completed(futures)]. *)
Definition collect (c : counters) (future : py_result (Z * option Z)) : counters :=
  match future with
  | Ok (return_code, status) =>
      match status with
      | Some http_status_code =>
          if (200 <=? http_status_code) && (http_status_code <? 400) then bump Success c
          else if (400 <=? http_status_code) && (http_status_code <? 500) then bump ClientError c
          else if (500 <=? http_status_code) && (http_status_code <? 600) then bump ServerError c
          else bump OtherFailure c
      | None =>
          if return_code =? 0 then bump OtherFailure c
          else bump OtherFailure c
      end
  | Raise _ => bump OtherFailure c
  end.

(** The variables of the [while] loop that reads one command's tokens. *)
Record parse_state : Type := mkParse {
  per_cmd_requests : Z;
  final_curl_args : list string;
  warnings : list message
}.

Definition is_requests_flag (arg : string) : bool :=
  (arg =? "-n")%string || (arg =? "--requests")%string.

Definition is_concurrency_flag (arg : string) : bool :=
  (arg =? "-c")%string || (arg =? "--concurrency")%string.

(** The response body that [execute_curl] prints: what stands before the
    matched status code, stripped again. *)
Definition actual_stdout (stdout : string) : string :=
  let stripped := strip stdout in
  let n := String.length stripped in
  if (3 <=? n)%nat then
    if all_digits (substring (n - 3) 3 stripped)
    then strip (substring 0 (n - 3) stripped)
    else stripped
  else stripped.

(** The status lines of the per-request report of a completed process. *)
Definition response_status (returncode : Z) (status : option Z) : list log_line :=
  if returncode =? 0 then
    match status with
    | Some http_status_code =>
        (if (200 <=? http_status_code) && (http_status_code <? 400) then [StatusCorrect]
         else if (400 <=? http_status_code) && (http_status_code <? 500)
              then [StatusClientError]
              else if (500 <=? http_status_code) && (http_status_code <? 600)
                   then [StatusServerError]
                   else [StatusOtherHttp])
        ++ [HttpStatusCode http_status_code]
    | None => [StatusSuccessNoCode]
    end
  else
    StatusErrorCurl returncode
    :: match status with
       | Some http_status_code => [HttpStatusCodeAfterError http_status_code]
       | None => []
       end.

(** The status lines of all three ways [execute_curl] can end. *)
Definition execute_curl_report (outcome : proc_outcome) : list log_line :=
  match outcome with
  | Completed returncode stdout _ => response_status returncode (http_status_code stdout)
  | ProcRaised FileNotFoundError => [StatusCommandNotFound]
  | ProcRaised _ => [StatusUnexpectedException]
  end.

(** [command_summary_counts] after the loop over [all_tasks]. *)
Definition command_summary_counts (all_tasks : list (list string * string))
    : list (string * Z) :=
  fold_left (fun d task => dict_set d (snd task) (dict_get d (snd task) 0 + 1))
            all_tasks [].

(** The lines "    {cmd_idx + 1}. {cmd_str} ({count} times)" of the header. *)
Definition command_summary (curl_commands : list string)
    (all_tasks : list (list string * string)) : list (Z * string * Z) :=
  let counts := command_summary_counts all_tasks in
  map (fun t => (fst t + 1, snd t, dict_get counts (snd t) 0))
      (combine (range 0 (Z.of_nat (List.length curl_commands))) curl_commands).

Section Main.

Variable shlex_split : string -> option (list string).
Variable py_int : string -> option Z.
Variable subprocess_run : Z -> list string -> proc_outcome.
Variable sched : nat -> nat.

(** [while i < len(temp_parsed_args)]: [args] is [temp_parsed_args[i:]]. *)
Fixpoint parse_arguments (original_cmd_str : string) (args : list string)
    (st : parse_state) : parse_state :=
  match args with
  | [] => st
  | arg :: rest =>
      if is_requests_flag arg then
        match rest with
        | value :: rest' =>
            match py_int value with
            | Some n =>
                parse_arguments original_cmd_str rest'
                  (mkParse n (final_curl_args st) (warnings st))
            | None =>
                parse_arguments original_cmd_str rest
                  (mkParse (per_cmd_requests st) (final_curl_args st)
                     (warnings st ++ [WarnInvalidNumber arg original_cmd_str])%list)
            end
        | [] =>
            parse_arguments original_cmd_str rest
              (mkParse (per_cmd_requests st) (final_curl_args st)
                 (warnings st ++ [WarnMissingValue arg original_cmd_str])%list)
        end
      else if is_concurrency_flag arg then
        let st' := mkParse (per_cmd_requests st) (final_curl_args st)
                     (warnings st ++ [WarnConcurrencyIgnored arg original_cmd_str])%list in
        match rest with
        | value :: rest' =>
            if negb (startswith_dash value)
            then parse_arguments original_cmd_str rest' st'
            else parse_arguments original_cmd_str rest st'
        | [] => parse_arguments original_cmd_str rest st'
        end
      else
        parse_arguments original_cmd_str rest
          (mkParse (per_cmd_requests st) (final_curl_args st ++ [arg])%list (warnings st))
  end.

(** One round of [for original_cmd_str in args.curl_commands]: the tasks the
    command adds to [all_tasks] and the messages it prints. *)
Definition command_tasks (global_requests_count : Z) (original_cmd_str : string)
    : list (list string * string) * list message :=
  match shlex_split original_cmd_str with
  | None => ([], [ErrParsing original_cmd_str])
  | Some temp_parsed_args =>
      match temp_parsed_args with
      | [] => ([], [ErrMustStartWithCurl original_cmd_str])
      | a0 :: _ =>
          if negb (a0 =? "curl")%string then ([], [ErrMustStartWithCurl original_cmd_str])
          else
            let st := parse_arguments original_cmd_str temp_parsed_args
                        (mkParse global_requests_count [] []) in
            match final_curl_args st with
            | [] => ([], (warnings st ++ [ErrNoValidArguments original_cmd_str])%list)
            | _ :: _ =>
                (map (fun _ => (final_curl_args st, original_cmd_str))
                     (range 0 (per_cmd_requests st)),
                 warnings st)
            end
      end
  end.

Fixpoint all_commands (global_requests_count : Z) (curl_commands : list string)
    : list (list string * string) * list message :=
  match curl_commands with
  | [] => ([], [])
  | original_cmd_str :: rest =>
      let (tasks, msgs) := command_tasks global_requests_count original_cmd_str in
      let (tasks', msgs') := all_commands global_requests_count rest in
      ((tasks ++ tasks')%list, (msgs ++ msgs')%list)
  end.

(** [enumerate(all_tasks, start=1)] *)
Definition enumerate1 {A : Type} (l : list A) : list (Z * A) :=
  combine (range 1 (Z.of_nat (List.length l) + 1)) l.

(** [main], after [argparse] has produced [curl_commands], [requests] and
    [concurrency]. *)
Definition main (curl_commands : list string) (requests concurrency : Z) : run :=
  let (all_tasks, msgs) := all_commands requests curl_commands in
  match all_tasks with
  | [] => mkRun (msgs ++ [MsgNoValidCommands])%list None [] [] (Returned MsgNoValidCommands)
  | _ :: _ =>
      match ThreadPoolExecutor concurrency with
      | Raise e => mkRun msgs None [] [] (Uncaught e)
      | Ok workers =>
          let numbered := enumerate1 all_tasks in
          let futures :=
            map (fun t => execute_curl (subprocess_run (fst t)) (fst (snd t))) numbered in
          let completed := as_completed sched futures in
          let counts := fold_left collect completed zero_counters in
          mkRun (msgs ++ future_errors completed)%list
                (Some workers)
                (map (fun t => (fst t, fst (snd t))) numbered)
                (started (map (fun t => modified_command_args (fst (snd t))) numbered))
                (Summary (mkReport (Z.of_nat (List.length all_tasks)) counts))
      end
  end.

End Main.

End MultiLoadFlare.

(** ** The command line of one call, as a specification

    What the per-call command should keep of the user's arguments, in words:
    a [-w] or [--write-out] flag goes, together with the argument right after
    it; every other argument stays, in order.  [copy_arguments] above is the
    loop of the source; it is compared with this function below. *)

Definition is_write_out_flag (arg : string) : bool :=
  (arg =? "-w")%string || (arg =? "--write-out")%string.

Fixpoint without_write_out (args : list string) : list string :=
  match args with
  | [] => []
  | arg :: rest =>
      if is_write_out_flag arg then
        match rest with
        | [] => []
        | _ :: rest' => without_write_out rest'
        end
      else arg :: without_write_out rest
  end.

(** [st'] comes from [st] by appending arguments that are none of the four
    custom flags, and messages. *)
Definition extends (st st' : MultiLoadFlare.parse_state) : Prop :=
  exists extra more,
    MultiLoadFlare.final_curl_args st'
      = (MultiLoadFlare.final_curl_args st ++ extra)%list
    /\ MultiLoadFlare.warnings st' = (MultiLoadFlare.warnings st ++ more)%list
    /\ forall x, In x extra ->
         MultiLoadFlare.is_requests_flag x = false
         /\ MultiLoadFlare.is_concurrency_flag x = false.

(** [l] is [l'] with some elements deleted: nothing added, nothing moved. *)
Inductive subseq {A : Type} : list A -> list A -> Prop :=
| subseq_nil : subseq [] []
| subseq_skip (x : A) (l l' : list A) : subseq l l' -> subseq l (x :: l')
| subseq_keep (x : A) (l l' : list A) : subseq l l' -> subseq (x :: l) (x :: l').

(** ** A sample environment

    Stand-ins for the library calls, used where a statement is checked on a
    concrete input.  [sample_split] agrees with [shlex.split] on text made of
    words separated by single spaces, without quotes or backslashes;
    [sample_int] agrees with [int()] on decimal numerals with an optional
    minus sign. *)

Definition sample_split (s : string) : option (list string) :=
  Some (filter (fun w => negb (w =? "")%string) (split_on " "%char s)).

Definition sample_int (s : string) : option Z :=
  match s with
  | String "-"%char digits =>
      if fullmatch_digits digits then Some (- int_of_digits digits) else None
  | _ => if fullmatch_digits s then Some (int_of_digits s) else None
  end.

(** Every call of curl succeeds and prints a body and the status 200. *)
Definition sample_ok (request_num : Z) (argv : list string) : proc_outcome :=
  Completed 0 ("body" ++ String newline "200" ++ String newline "") "".

(** The curl binary is missing. *)
Definition sample_missing (request_num : Z) (argv : list string) : proc_outcome :=
  ProcRaised FileNotFoundError.

(** Futures complete in submission order. *)
Definition fifo (step : nat) : nat := 0%nat.

(** ** Counters *)

Lemma bump_sum (k : outcome_class) (c : counters) :
  counters_sum (bump k c) = counters_sum c + 1.
Proof. destruct k; unfold counters_sum; simpl; lia. Qed.

Lemma bump_comm (k k' : outcome_class) (c : counters) :
  bump k (bump k' c) = bump k' (bump k c).
Proof. destruct k, k'; reflexivity. Qed.

(** The class a future is counted in, read off [collect]. *)
Lemma single_collect_bumps (f : py_result (Z * option Z)) :
  exists k, forall c', LoadFlare.collect c' f = bump k c'.
Proof.
  destruct f as [[rc [code|]]|e]; unfold LoadFlare.collect.
  - destruct (rc =? 0); [|now exists OtherFailure].
    destruct ((200 <=? code) && (code <? 400)); [now exists Success|].
    destruct ((400 <=? code) && (code <? 500)); [now exists ClientError|].
    destruct ((500 <=? code) && (code <? 600)); [now exists ServerError|].
    now exists OtherFailure.
  - exists OtherFailure. now destruct (rc =? 0).
  - now exists OtherFailure.
Qed.

Lemma multi_collect_bumps (f : py_result (Z * option Z)) :
  exists k, forall c', MultiLoadFlare.collect c' f = bump k c'.
Proof.
  destruct f as [[rc [code|]]|e]; unfold MultiLoadFlare.collect.
  - destruct ((200 <=? code) && (code <? 400)); [now exists Success|].
    destruct ((400 <=? code) && (code <? 500)); [now exists ClientError|].
    destruct ((500 <=? code) && (code <? 600)); [now exists ServerError|].
    now exists OtherFailure.
  - exists OtherFailure. now destruct (rc =? 0).
  - now exists OtherFailure.
Qed.

Section Tally.

(** Any loop body that bumps exactly one counter per future. *)
Variable collect : counters -> py_result (Z * option Z) -> counters.
Hypothesis collect_bumps :
  forall f, exists k, forall c, collect c f = bump k c.

Lemma collect_sum (c : counters) (f : py_result (Z * option Z)) :
  counters_sum (collect c f) = counters_sum c + 1.
Proof. destruct (collect_bumps f) as [k Hk]. rewrite Hk. apply bump_sum. Qed.

Lemma fold_collect_sum (l : list (py_result (Z * option Z))) (c : counters) :
  counters_sum (fold_left collect l c) = counters_sum c + Z.of_nat (List.length l).
Proof.
  revert c. induction l as [|f l IH]; intros c.
  - simpl. lia.
  - cbn [fold_left List.length]. rewrite IH, collect_sum. lia.
Qed.

Lemma fold_collect_bump (k : outcome_class) (l : list (py_result (Z * option Z)))
    (c : counters) :
  fold_left collect l (bump k c) = bump k (fold_left collect l c).
Proof.
  revert c. induction l as [|f l IH]; intros c; [reflexivity|].
  cbn [fold_left]. destruct (collect_bumps f) as [k' Hk'].
  rewrite !Hk', bump_comm. apply IH.
Qed.

(** A future counted as [k] adds one to [k] wherever it completes. *)
Lemma fold_collect_middle (k : outcome_class) (f : py_result (Z * option Z))
    (l1 l2 : list (py_result (Z * option Z))) (c : counters) :
  (forall c', collect c' f = bump k c') ->
  fold_left collect (l1 ++ f :: l2) c = bump k (fold_left collect (l1 ++ l2) c).
Proof.
  intros Hf. rewrite !fold_left_app. cbn [fold_left].
  rewrite Hf. apply fold_collect_bump.
Qed.

End Tally.

(** ** The completion order *)

Lemma length_remove_nth {A : Type} (i : nat) (l : list A) :
  (i < List.length l)%nat -> List.length (remove_nth i l) = pred (List.length l).
Proof.
  revert i. induction l as [|x l IH]; intros [|i] H; simpl in *; try lia.
  rewrite IH by lia. lia.
Qed.

Lemma nth_remove_nth_perm {A : Type} (i : nat) (l : list A) (d : A) :
  (i < List.length l)%nat -> Permutation (nth i l d :: remove_nth i l) l.
Proof.
  revert i. induction l as [|x l IH]; intros [|i] H; simpl in *; try lia.
  - apply Permutation_refl.
  - eapply perm_trans; [apply perm_swap|]. apply perm_skip, IH. lia.
Qed.

Lemma complete_perm {A : Type} (sched : nat -> nat) (fuel : nat) :
  forall (step : nat) (pending : list A),
    List.length pending = fuel -> Permutation (complete sched step fuel pending) pending.
Proof.
  induction fuel as [|fuel IH]; intros step pending Hlen.
  - destruct pending; [apply perm_nil|discriminate].
  - destruct pending as [|p0 rest]; [discriminate|].
    cbn [complete].
    set (i := (sched step mod List.length (p0 :: rest))%nat).
    assert (Hi : (i < List.length (p0 :: rest))%nat)
      by (apply Nat.mod_upper_bound; discriminate).
    eapply perm_trans; [|apply (nth_remove_nth_perm i (p0 :: rest) p0 Hi)].
    apply perm_skip, IH. rewrite length_remove_nth by exact Hi.
    rewrite Hlen. reflexivity.
Qed.

(** [as_completed] yields each future exactly once. *)
Lemma as_completed_perm {A : Type} (sched : nat -> nat) (futures : list A) :
  Permutation (as_completed sched futures) futures.
Proof. apply complete_perm. reflexivity. Qed.

Lemma as_completed_length {A : Type} (sched : nat -> nat) (futures : list A) :
  List.length (as_completed sched futures) = List.length futures.
Proof. apply Permutation_length, as_completed_perm. Qed.

Lemma range_length (a b : Z) : List.length (range a b) = Z.to_nat (b - a).
Proof. unfold range. now rewrite length_map, length_seq. Qed.

(** ** Classification of one result *)

(** C1 (the code at the failing input): curl exits with status 22 after
    printing the status 404, as it does under [--fail].  [load_flare.py]
    counts the request as an other failure; [multi_load_flare.py] looks at
    the status code first and counts it as a client error, and a status 200
    next to exit status 28 as a success. *)
Theorem nonzero_exit_counted_by_status_code :
  let failed (i : Z) (argv : list string) := Completed 22 ("404" ++ String newline "") "curl: (22)" in
  LoadFlare.execute_curl (failed 1) ["curl"; "--fail"; "http://h/x"] = Ok (22, Some 404)
  /\ MultiLoadFlare.execute_curl (failed 1) ["curl"; "--fail"; "http://h/x"] = Ok (22, Some 404)
  /\ LoadFlare.collect zero_counters (Ok (22, Some 404)) = bump OtherFailure zero_counters
  /\ MultiLoadFlare.collect zero_counters (Ok (22, Some 404)) = bump ClientError zero_counters
  /\ MultiLoadFlare.collect zero_counters (Ok (28, Some 200)) = bump Success zero_counters
  /\ finish (MultiLoadFlare.main sample_split sample_int failed fifo
               ["curl --fail http://h/x"] 1 4)
     = Summary (mkReport 1 (mkCounters 0 1 0 0)).
Proof. repeat split; reflexivity. Qed.

(** X1: in [load_flare.py] a non-zero return code always lands in the other
    failures, whatever status code came with it. *)
Lemma single_nonzero_exit_is_other_failure (c : counters) (rc : Z) (status : option Z) :
  rc <> 0 -> LoadFlare.collect c (Ok (rc, status)) = bump OtherFailure c.
Proof.
  intros Hrc. unfold LoadFlare.collect.
  destruct (Z.eqb_spec rc 0) as [->|_]; [contradiction|]. reflexivity.
Qed.

Lemma single_nonzero_exit_is_other_failure_witness :
  LoadFlare.collect zero_counters (Ok (22, Some 404)) = mkCounters 0 0 0 1.
Proof.
  apply (single_nonzero_exit_is_other_failure zero_counters 22 (Some 404)). lia.
Defined.

(** C2: with exit status 0 and a status code [code], both scripts count the
    request by the numeric range of [code] alone: [[200,400)] success,
    [[400,500)] client error, [[500,600)] server error, anything else other
    failure; the boundary values 199, 200, 399, 400, 499, 500, 599 and 600
    fall as the ranges say. *)
Theorem exit_zero_classified_by_range (c : counters) (code : Z) :
  LoadFlare.collect c (Ok (0, Some code)) = MultiLoadFlare.collect c (Ok (0, Some code))
  /\ (200 <= code < 400 -> LoadFlare.collect c (Ok (0, Some code)) = bump Success c)
  /\ (400 <= code < 500 -> LoadFlare.collect c (Ok (0, Some code)) = bump ClientError c)
  /\ (500 <= code < 600 -> LoadFlare.collect c (Ok (0, Some code)) = bump ServerError c)
  /\ (code < 200 \/ 600 <= code ->
      LoadFlare.collect c (Ok (0, Some code)) = bump OtherFailure c)
  /\ map (fun b => LoadFlare.collect c (Ok (0, Some b)))
         [199; 200; 399; 400; 499; 500; 599; 600]
     = map (fun k => bump k c)
         [OtherFailure; Success; Success; ClientError; ClientError;
          ServerError; ServerError; OtherFailure]
  /\ map (fun b => MultiLoadFlare.collect c (Ok (0, Some b)))
         [199; 200; 399; 400; 499; 500; 599; 600]
     = map (fun k => bump k c)
         [OtherFailure; Success; Success; ClientError; ClientError;
          ServerError; ServerError; OtherFailure].
Proof.
  split; [reflexivity|].
  unfold LoadFlare.collect. cbn [Z.eqb].
  repeat split; try reflexivity; intros H.
  - destruct (Z.leb_spec 200 code), (Z.ltb_spec code 400); try lia. reflexivity.
  - destruct (Z.leb_spec 200 code), (Z.ltb_spec code 400),
             (Z.leb_spec 400 code), (Z.ltb_spec code 500); try lia; reflexivity.
  - destruct (Z.leb_spec 200 code), (Z.ltb_spec code 400),
             (Z.leb_spec 400 code), (Z.ltb_spec code 500),
             (Z.leb_spec 500 code), (Z.ltb_spec code 600); try lia; reflexivity.
  - destruct (Z.leb_spec 200 code), (Z.ltb_spec code 400),
             (Z.leb_spec 400 code), (Z.ltb_spec code 500),
             (Z.leb_spec 500 code), (Z.ltb_spec code 600); try lia; reflexivity.
Qed.

Lemma exit_zero_classified_by_range_witness :
  LoadFlare.collect zero_counters (Ok (0, Some 204)) = bump Success zero_counters
  /\ LoadFlare.collect zero_counters (Ok (0, Some 204))
     = MultiLoadFlare.collect zero_counters (Ok (0, Some 204)).
Proof.
  destruct (exit_zero_classified_by_range zero_counters 204) as [Heq [Hs _]].
  split; [apply Hs; lia | exact Heq].
Defined.

(** C7: a request that ends with exit status 0 and no status code is counted
    as an other failure by both scripts, and leaves the success, client error
    and server error counters as they were, also when the result comes out
    of [execute_curl] on an output that carries no status code. *)
Theorem exit_zero_without_status_is_other_failure (c : counters) :
  LoadFlare.collect c (Ok (0, None)) = bump OtherFailure c
  /\ MultiLoadFlare.collect c (Ok (0, None)) = bump OtherFailure c
  /\ success_count (bump OtherFailure c) = success_count c
  /\ client_error_count (bump OtherFailure c) = client_error_count c
  /\ server_error_count (bump OtherFailure c) = server_error_count c
  /\ other_failure_count (bump OtherFailure c) = other_failure_count c + 1
  /\ (forall run_proc command_args argv stdout stderr,
        LoadFlare.modified_command_args command_args = Ok argv ->
        run_proc argv = Completed 0 stdout stderr ->
        LoadFlare.http_status_code stdout = None ->
        LoadFlare.collect c (LoadFlare.execute_curl run_proc command_args)
        = bump OtherFailure c)
  /\ (forall run_proc command_args argv stdout stderr,
        MultiLoadFlare.modified_command_args command_args = Ok argv ->
        run_proc argv = Completed 0 stdout stderr ->
        MultiLoadFlare.http_status_code stdout = None ->
        MultiLoadFlare.collect c (MultiLoadFlare.execute_curl run_proc command_args)
        = bump OtherFailure c).
Proof.
  repeat split; try reflexivity.
  - intros run_proc command_args argv stdout stderr Hargv Hrun Hcode.
    unfold LoadFlare.execute_curl. rewrite Hargv, Hrun, Hcode. reflexivity.
  - intros run_proc command_args argv stdout stderr Hargv Hrun Hcode.
    unfold MultiLoadFlare.execute_curl. rewrite Hargv, Hrun, Hcode. reflexivity.
Qed.

Lemma exit_zero_without_status_is_other_failure_witness :
  LoadFlare.collect zero_counters
    (LoadFlare.execute_curl (fun _ => Completed 0 "pong" "") ["curl"; "ftp://h/f"])
  = mkCounters 0 0 0 1
  /\ MultiLoadFlare.collect zero_counters
       (MultiLoadFlare.execute_curl (fun _ => Completed 0 "pong" "") ["curl"; "ftp://h/f"])
     = mkCounters 0 0 0 1.
Proof.
  destruct (exit_zero_without_status_is_other_failure zero_counters)
    as (_ & _ & _ & _ & _ & _ & Hs & Hm).
  split.
  - apply (Hs _ _ ["curl"; "-w"; http_code_format; "ftp://h/f"] "pong" "");
      reflexivity.
  - apply (Hm _ _ ["curl"; "-s"; "-L"; "-w"; http_code_format; "ftp://h/f"] "pong" "");
      reflexivity.
Defined.

(** ** Whole runs *)

Lemma pool_accepts (n : Z) : 0 < n -> ThreadPoolExecutor n = Ok n.
Proof. intros H. unfold ThreadPoolExecutor. destruct (Z.leb_spec n 0); [lia|reflexivity]. Qed.

Lemma pool_rejects (n : Z) :
  n <= 0 -> ThreadPoolExecutor n = Raise (ValueError "max_workers must be greater than 0").
Proof. intros H. unfold ThreadPoolExecutor. destruct (Z.leb_spec n 0); [reflexivity|lia]. Qed.

Lemma enumerate1_length {A : Type} (l : list A) :
  List.length (MultiLoadFlare.enumerate1 l) = List.length l.
Proof.
  unfold MultiLoadFlare.enumerate1. rewrite length_combine, range_length.
  replace (Z.of_nat (List.length l) + 1 - 1) with (Z.of_nat (List.length l)) by lia.
  rewrite Nat2Z.id. apply Nat.min_id.
Qed.

(** [load_flare.py] with a command that starts with curl and a positive
    number of workers reaches the final summary. *)
Lemma single_main_runs (shlex_split : string -> option (list string))
    (subprocess_run : Z -> list string -> proc_outcome) (sched : nat -> nat)
    (cmd : string) (rest : list string) (n c : Z) :
  shlex_split cmd = Some ("curl" :: rest) -> 0 < c ->
  LoadFlare.main shlex_split subprocess_run sched cmd n c =
    let command_args := "curl" :: rest in
    let nums := range 1 (n + 1) in
    let completed :=
      as_completed sched
        (map (fun i => LoadFlare.execute_curl (subprocess_run i) command_args) nums) in
    mkRun (future_errors completed) (Some c)
          (map (fun i => (i, command_args)) nums)
          (started (map (fun _ => LoadFlare.modified_command_args command_args) nums))
          (Summary (mkReport n (fold_left LoadFlare.collect completed zero_counters))).
Proof.
  intros Hsplit Hc. unfold LoadFlare.main. rewrite Hsplit.
  cbn [String.eqb Ascii.eqb negb]. simpl negb. cbv iota.
  rewrite (pool_accepts c Hc). reflexivity.
Qed.

(** C3: a run with a valid configuration ends in the final summary, and
    there the printed total and the sum of the four counters both equal the
    number [k] of submitted requests; every future, also one whose result
    raises, bumps exactly one counter.  In [load_flare.py] [k] is the request
    count [-n] (not negative); in [multi_load_flare.py] it is the length of
    [all_tasks] (not empty). *)
Theorem total_and_counters_equal_submitted :
  (forall shlex_split subprocess_run sched cmd rest n c,
      shlex_split cmd = Some ("curl" :: rest) -> 0 < c -> 0 <= n ->
      let R := LoadFlare.main shlex_split subprocess_run sched cmd n c in
      List.length (submitted R) = Z.to_nat n
      /\ exists r, finish R = Summary r
           /\ total_attempted r = Z.of_nat (List.length (submitted R))
           /\ counters_sum (counts_by_class r) = Z.of_nat (List.length (submitted R)))
  /\ (forall shlex_split py_int subprocess_run sched cmds n c,
      0 < c -> fst (MultiLoadFlare.all_commands shlex_split py_int n cmds) <> [] ->
      let R := MultiLoadFlare.main shlex_split py_int subprocess_run sched cmds n c in
      List.length (submitted R)
        = List.length (fst (MultiLoadFlare.all_commands shlex_split py_int n cmds))
      /\ exists r, finish R = Summary r
           /\ total_attempted r = Z.of_nat (List.length (submitted R))
           /\ counters_sum (counts_by_class r) = Z.of_nat (List.length (submitted R)))
  /\ (forall f, exists k, forall c, LoadFlare.collect c f = bump k c)
  /\ (forall f, exists k, forall c, MultiLoadFlare.collect c f = bump k c).
Proof.
  split; [|split; [|split; [exact single_collect_bumps | exact multi_collect_bumps]]].
  - intros shlex_split subprocess_run sched cmd rest n c Hsplit Hc Hn R.
    subst R. rewrite (single_main_runs _ _ _ _ rest _ _ Hsplit Hc).
    cbn [submitted finish]. rewrite length_map, range_length.
    replace (n + 1 - 1) with n by lia.
    split; [reflexivity|]. eexists. split; [reflexivity|].
    cbn [total_attempted counts_by_class]. split; [lia|].
    rewrite (fold_collect_sum _ single_collect_bumps).
    rewrite as_completed_length, length_map, range_length.
    replace (n + 1 - 1) with n by lia. reflexivity.
  - intros shlex_split py_int subprocess_run sched cmds n c Hc Htasks R.
    subst R. unfold MultiLoadFlare.main.
    destruct (MultiLoadFlare.all_commands shlex_split py_int n cmds) as [tasks msgs].
    cbn [fst] in *. destruct tasks as [|t tasks]; [contradiction|].
    rewrite (pool_accepts c Hc). cbn [submitted finish].
    rewrite length_map, enumerate1_length.
    split; [reflexivity|]. eexists. split; [reflexivity|].
    cbn [total_attempted counts_by_class]. split; [reflexivity|].
    rewrite (fold_collect_sum _ multi_collect_bumps).
    rewrite as_completed_length, length_map, enumerate1_length. reflexivity.
Qed.

Lemma total_and_counters_equal_submitted_witness :
  (exists r,
      finish (LoadFlare.main sample_split sample_ok (fun s => s) "curl http://h/x" 10 3)
      = Summary r
      /\ total_attempted r = 10 /\ counters_sum (counts_by_class r) = 10)
  /\ (exists r,
      finish (MultiLoadFlare.main sample_split sample_int sample_missing (fun s => s)
                ["curl http://h/x -n 2"; "curl http://h/y"] 3 2)
      = Summary r
      /\ total_attempted r = 5 /\ counters_sum (counts_by_class r) = 5).
Proof.
  destruct total_and_counters_equal_submitted as (Hs & Hm & _).
  split.
  - destruct (Hs sample_split sample_ok (fun s => s) "curl http://h/x" ["http://h/x"] 10 3)
      as (Hlen & r & Hr & Ht & Hsum); [reflexivity | lia | lia |].
    exists r. rewrite Hlen in Ht, Hsum. auto.
  - destruct (Hm sample_split sample_int sample_missing (fun s => s)
                ["curl http://h/x -n 2"; "curl http://h/y"] 3 2)
      as (Hlen & r & Hr & Ht & Hsum); [lia | discriminate |].
    exists r. rewrite Hlen in Ht, Hsum. auto.
Defined.

Lemma in_range (a b i : Z) : a <= i < b -> In i (range a b).
Proof.
  intros H. unfold range. apply in_map_iff. exists (Z.to_nat (i - a)).
  split; [lia|]. apply in_seq. lia.
Qed.

(** A future counted as [k] that is among the submitted ones is counted
    once, whenever it completes; the rest of the tally is that of the other
    futures. *)
Lemma one_future_one_bump (collect : counters -> py_result (Z * option Z) -> counters)
    (sched : nat -> nat) (k : outcome_class) (f : py_result (Z * option Z))
    (futures : list (py_result (Z * option Z))) :
  (forall g, exists k', forall c, collect c g = bump k' c) ->
  (forall c, collect c f = bump k c) ->
  In f futures ->
  exists others,
    Permutation (f :: others) futures
    /\ fold_left collect (as_completed sched futures) zero_counters
       = bump k (fold_left collect others zero_counters).
Proof.
  intros Hall Hf Hin.
  assert (Hin' : In f (as_completed sched futures)).
  { eapply Permutation_in; [apply Permutation_sym, as_completed_perm | exact Hin]. }
  destruct (in_split _ _ Hin') as (l1 & l2 & Hsplit).
  exists (l1 ++ l2)%list. split.
  - eapply perm_trans; [apply Permutation_middle|].
    rewrite <- Hsplit. apply as_completed_perm.
  - rewrite Hsplit. apply (fold_collect_middle collect Hall k f l1 l2 _ Hf).
Qed.

(** C4: when [subprocess.run] raises, whether [FileNotFoundError] or any
    other exception, [execute_curl] returns [(-1, None)] instead of raising,
    and the run still ends in the final summary, where that request accounts
    for exactly one other failure on top of what the other requests give. *)
Theorem executor_error_is_one_other_failure :
  (forall run_proc command_args argv e,
      LoadFlare.modified_command_args command_args = Ok argv ->
      run_proc argv = ProcRaised e ->
      LoadFlare.execute_curl run_proc command_args = Ok (-1, None))
  /\ (forall run_proc command_args argv e,
      MultiLoadFlare.modified_command_args command_args = Ok argv ->
      run_proc argv = ProcRaised e ->
      MultiLoadFlare.execute_curl run_proc command_args = Ok (-1, None))
  /\ (forall c, LoadFlare.collect c (Ok (-1, None)) = bump OtherFailure c)
  /\ (forall c, MultiLoadFlare.collect c (Ok (-1, None)) = bump OtherFailure c)
  /\ (forall shlex_split subprocess_run sched cmd rest n c i argv e,
      shlex_split cmd = Some ("curl" :: rest) -> 0 < c -> 1 <= i <= n ->
      LoadFlare.modified_command_args ("curl" :: rest) = Ok argv ->
      subprocess_run i argv = ProcRaised e ->
      exists others,
        Permutation (Ok (-1, None) :: others)
          (map (fun j => LoadFlare.execute_curl (subprocess_run j) ("curl" :: rest))
               (range 1 (n + 1)))
        /\ finish (LoadFlare.main shlex_split subprocess_run sched cmd n c)
           = Summary (mkReport n
               (bump OtherFailure (fold_left LoadFlare.collect others zero_counters))))
  /\ (forall shlex_split py_int subprocess_run sched cmds n c i args original argv e,
      0 < c ->
      In (i, (args, original))
         (MultiLoadFlare.enumerate1
            (fst (MultiLoadFlare.all_commands shlex_split py_int n cmds))) ->
      MultiLoadFlare.modified_command_args args = Ok argv ->
      subprocess_run i argv = ProcRaised e ->
      exists others,
        Permutation (Ok (-1, None) :: others)
          (map (fun t => MultiLoadFlare.execute_curl (subprocess_run (fst t)) (fst (snd t)))
               (MultiLoadFlare.enumerate1
                  (fst (MultiLoadFlare.all_commands shlex_split py_int n cmds))))
        /\ finish (MultiLoadFlare.main shlex_split py_int subprocess_run sched cmds n c)
           = Summary (mkReport
               (Z.of_nat (List.length
                  (fst (MultiLoadFlare.all_commands shlex_split py_int n cmds))))
               (bump OtherFailure (fold_left MultiLoadFlare.collect others zero_counters)))).
Proof.
  assert (Hs : forall run_proc command_args argv e,
      LoadFlare.modified_command_args command_args = Ok argv ->
      run_proc argv = ProcRaised e ->
      LoadFlare.execute_curl run_proc command_args = Ok (-1, None)).
  { intros run_proc command_args argv e Hargv Hrun.
    unfold LoadFlare.execute_curl. rewrite Hargv, Hrun. now destruct e. }
  assert (Hm : forall run_proc command_args argv e,
      MultiLoadFlare.modified_command_args command_args = Ok argv ->
      run_proc argv = ProcRaised e ->
      MultiLoadFlare.execute_curl run_proc command_args = Ok (-1, None)).
  { intros run_proc command_args argv e Hargv Hrun.
    unfold MultiLoadFlare.execute_curl. rewrite Hargv, Hrun. now destruct e. }
  split; [exact Hs|]. split; [exact Hm|].
  split; [reflexivity|]. split; [reflexivity|]. split.
  - intros shlex_split subprocess_run sched cmd rest n c i argv e
           Hsplit Hc Hi Hargv Hrun.
    rewrite (single_main_runs _ _ _ _ rest _ _ Hsplit Hc). cbn [finish].
    destruct (one_future_one_bump LoadFlare.collect sched OtherFailure (Ok (-1, None))
                (map (fun j => LoadFlare.execute_curl (subprocess_run j) ("curl" :: rest))
                     (range 1 (n + 1))))
      as (others & Hperm & Hfold).
    + exact single_collect_bumps.
    + reflexivity.
    + apply in_map_iff. exists i. split; [|apply in_range; lia].
      apply (Hs _ _ argv e Hargv Hrun).
    + exists others. split; [exact Hperm|]. now rewrite Hfold.
  - intros shlex_split py_int subprocess_run sched cmds n c i args original argv e
           Hc Hin Hargv Hrun.
    unfold MultiLoadFlare.main.
    destruct (MultiLoadFlare.all_commands shlex_split py_int n cmds) as [tasks msgs].
    cbn [fst] in *. destruct tasks as [|t tasks]; [destruct Hin|].
    rewrite (pool_accepts c Hc). cbn [finish].
    destruct (one_future_one_bump MultiLoadFlare.collect sched OtherFailure (Ok (-1, None))
                (map (fun t => MultiLoadFlare.execute_curl (subprocess_run (fst t))
                                 (fst (snd t)))
                     (MultiLoadFlare.enumerate1 (t :: tasks))))
      as (others & Hperm & Hfold).
    + exact multi_collect_bumps.
    + reflexivity.
    + apply in_map_iff. exists (i, (args, original)). split; [|exact Hin].
      apply (Hm _ _ argv e Hargv Hrun).
    + exists others. split; [exact Hperm|]. now rewrite Hfold.
Qed.

Lemma executor_error_is_one_other_failure_witness :
  LoadFlare.execute_curl (sample_missing 1) ["curl"; "http://h/x"] = Ok (-1, None)
  /\ MultiLoadFlare.execute_curl (fun _ => ProcRaised (OtherException "boom"))
       ["curl"; "http://h/x"] = Ok (-1, None)
  /\ exists others,
       finish (LoadFlare.main sample_split
                 (fun i => if i =? 2 then sample_missing i else sample_ok i)
                 fifo "curl http://h/x" 3 2)
       = Summary (mkReport 3
           (bump OtherFailure (fold_left LoadFlare.collect others zero_counters))).
Proof.
  destruct executor_error_is_one_other_failure as (Hs & Hm & _ & _ & Hrun & _).
  split; [|split].
  - apply (Hs _ _ ["curl"; "-w"; http_code_format; "http://h/x"] FileNotFoundError);
      reflexivity.
  - apply (Hm _ _ ["curl"; "-s"; "-L"; "-w"; http_code_format; "http://h/x"]
              (OtherException "boom")); reflexivity.
  - destruct (Hrun sample_split
                (fun i => if i =? 2 then sample_missing i else sample_ok i)
                fifo "curl http://h/x" ["http://h/x"] 3 2 2
                ["curl"; "-w"; http_code_format; "http://h/x"] FileNotFoundError)
      as (others & _ & Hfin); [reflexivity | lia | lia | reflexivity | reflexivity |].
    exists others. exact Hfin.
Defined.

(** C5: with a concurrency limit that is zero or negative no request is
    submitted or executed and no pool exists; the run ends in an error
    instead of the summary.  Once the command line has passed the checks
    that come first (the command starts with curl; in the multi-command
    script [all_tasks] is not empty) the error is the [ValueError] of
    [ThreadPoolExecutor]; otherwise the run has already stopped at those
    checks. *)
Theorem nonpositive_concurrency_starts_no_work (c : Z) (Hc : c <= 0) :
  (forall shlex_split subprocess_run sched cmd n,
      let R := LoadFlare.main shlex_split subprocess_run sched cmd n c in
      submitted R = [] /\ executed R = [] /\ max_workers R = None
      /\ (finish R = Uncaught (ValueError "max_workers must be greater than 0")
          \/ finish R = Returned (ErrMustStartWithCurl cmd)
          \/ finish R = Returned (ErrParsing cmd))
      /\ (forall rest, shlex_split cmd = Some ("curl" :: rest) ->
          finish R = Uncaught (ValueError "max_workers must be greater than 0")))
  /\ (forall shlex_split py_int subprocess_run sched cmds n,
      let R := MultiLoadFlare.main shlex_split py_int subprocess_run sched cmds n c in
      submitted R = [] /\ executed R = [] /\ max_workers R = None
      /\ (finish R = Uncaught (ValueError "max_workers must be greater than 0")
          \/ finish R = Returned MsgNoValidCommands)
      /\ (fst (MultiLoadFlare.all_commands shlex_split py_int n cmds) <> [] ->
          finish R = Uncaught (ValueError "max_workers must be greater than 0"))).
Proof.
  split.
  - intros shlex_split subprocess_run sched cmd n R. subst R.
    unfold LoadFlare.main.
    destruct (shlex_split cmd) as [[|a0 rest]|] eqn:Hsplit;
      try (cbn; repeat split; auto; intros; discriminate).
    destruct (String.eqb_spec a0 "curl") as [->|Hne]; cbn [negb].
    + rewrite (pool_rejects c Hc). cbn. repeat split; auto.
    + cbn. repeat split; auto. intros rest' Heq. congruence.
  - intros shlex_split py_int subprocess_run sched cmds n R. subst R.
    unfold MultiLoadFlare.main.
    destruct (MultiLoadFlare.all_commands shlex_split py_int n cmds) as [[|t tasks] msgs].
    + cbn. repeat split; auto. intros H. contradiction.
    + rewrite (pool_rejects c Hc). cbn. repeat split; auto.
Qed.

Lemma nonpositive_concurrency_starts_no_work_witness :
  finish (LoadFlare.main sample_split sample_ok fifo "curl http://h/x" 5 0)
  = Uncaught (ValueError "max_workers must be greater than 0")
  /\ executed (MultiLoadFlare.main sample_split sample_int sample_ok fifo
                 ["curl http://h/x"] 5 (-2)) = [].
Proof.
  split.
  - destruct (nonpositive_concurrency_starts_no_work 0 ltac:(lia)) as [Hs _].
    destruct (Hs sample_split sample_ok fifo "curl http://h/x" 5)
      as (_ & _ & _ & _ & Hfin).
    apply (Hfin ["http://h/x"]). reflexivity.
  - destruct (nonpositive_concurrency_starts_no_work (-2) ltac:(lia)) as [_ Hm].
    destruct (Hm sample_split sample_int sample_ok fifo ["curl http://h/x"] 5)
      as (_ & Hex & _).
    exact Hex.
Defined.

(** C6 as stated fails for [multi_load_flare.py]: with a request count of
    zero the command yields no task, and the run returns after "No valid
    curl commands to execute" without printing a summary. *)
Lemma multi_empty_work_prints_no_summary :
  fst (MultiLoadFlare.all_commands sample_split sample_int 0 ["curl http://h/x"]) = []
  /\ ~ (exists r,
         finish (MultiLoadFlare.main sample_split sample_int sample_ok fifo
                   ["curl http://h/x"] 0 4) = Summary r
         /\ counts_by_class r = zero_counters).
Proof.
  split; [reflexivity|]. intros (r & Hr & _). discriminate Hr.
Qed.

(** C6, amended: with nothing to run no request is submitted or executed.
    [load_flare.py] (command starting with curl, positive concurrency) then
    prints the summary with all four counters at zero; [multi_load_flare.py]
    returns before the pool is created, after the message that there is no
    valid command, and prints no summary. *)
Theorem empty_work_runs_nothing :
  (forall shlex_split subprocess_run sched cmd rest n c,
      shlex_split cmd = Some ("curl" :: rest) -> 0 < c -> n <= 0 ->
      LoadFlare.main shlex_split subprocess_run sched cmd n c
      = mkRun [] (Some c) [] [] (Summary (mkReport n zero_counters)))
  /\ (forall shlex_split py_int subprocess_run sched cmds n c,
      fst (MultiLoadFlare.all_commands shlex_split py_int n cmds) = [] ->
      let R := MultiLoadFlare.main shlex_split py_int subprocess_run sched cmds n c in
      finish R = Returned MsgNoValidCommands
      /\ submitted R = [] /\ executed R = [] /\ max_workers R = None).
Proof.
  split.
  - intros shlex_split subprocess_run sched cmd rest n c Hsplit Hc Hn.
    rewrite (single_main_runs _ _ _ _ rest _ _ Hsplit Hc).
    unfold range. replace (Z.to_nat (n + 1 - 1)) with 0%nat by lia. reflexivity.
  - intros shlex_split py_int subprocess_run sched cmds n c Hempty R. subst R.
    unfold MultiLoadFlare.main.
    destruct (MultiLoadFlare.all_commands shlex_split py_int n cmds) as [tasks msgs].
    cbn [fst] in Hempty. subst tasks. cbn. auto.
Qed.

Lemma empty_work_runs_nothing_witness :
  LoadFlare.main sample_split sample_ok fifo "curl http://h/x" 0 4
  = mkRun [] (Some 4) [] [] (Summary (mkReport 0 zero_counters))
  /\ finish (MultiLoadFlare.main sample_split sample_int sample_ok fifo ["wget http://h/x"] 3 4)
     = Returned MsgNoValidCommands.
Proof.
  destruct empty_work_runs_nothing as [Hs Hm]. split.
  - apply (Hs sample_split sample_ok fifo "curl http://h/x" ["http://h/x"] 0 4);
      [reflexivity | lia | lia].
  - apply (Hm sample_split sample_int sample_ok fifo ["wget http://h/x"] 3 4).
    reflexivity.
Defined.

(** ** Command templates *)

Section Templates.

Variable shlex_split : string -> option (list string).
Variable py_int : string -> option Z.

Lemma all_commands_app (n : Z) (l1 l2 : list string) :
  MultiLoadFlare.all_commands shlex_split py_int n (l1 ++ l2)
  = ((fst (MultiLoadFlare.all_commands shlex_split py_int n l1)
      ++ fst (MultiLoadFlare.all_commands shlex_split py_int n l2))%list,
     (snd (MultiLoadFlare.all_commands shlex_split py_int n l1)
      ++ snd (MultiLoadFlare.all_commands shlex_split py_int n l2))%list).
Proof.
  induction l1 as [|cmd l1 IH].
  - cbn. now destruct (MultiLoadFlare.all_commands shlex_split py_int n l2).
  - cbn [app MultiLoadFlare.all_commands]. rewrite IH.
    destruct (MultiLoadFlare.command_tasks shlex_split py_int n cmd) as [tasks msgs].
    destruct (MultiLoadFlare.all_commands shlex_split py_int n l1) as [tasks1 msgs1].
    cbn [fst snd]. now rewrite <- !app_assoc.
Qed.

Lemma all_commands_cons (n : Z) (cmd : string) (l : list string) :
  MultiLoadFlare.all_commands shlex_split py_int n (cmd :: l)
  = ((fst (MultiLoadFlare.command_tasks shlex_split py_int n cmd)
      ++ fst (MultiLoadFlare.all_commands shlex_split py_int n l))%list,
     (snd (MultiLoadFlare.command_tasks shlex_split py_int n cmd)
      ++ snd (MultiLoadFlare.all_commands shlex_split py_int n l))%list).
Proof.
  cbn [MultiLoadFlare.all_commands].
  destruct (MultiLoadFlare.command_tasks shlex_split py_int n cmd) as [tasks msgs].
  now destruct (MultiLoadFlare.all_commands shlex_split py_int n l).
Qed.

(** A command whose first token is not curl adds no task. *)
Lemma command_tasks_not_curl (n : Z) (cmd : string) (tokens : list string) :
  shlex_split cmd = Some tokens -> hd_error tokens <> Some "curl" ->
  MultiLoadFlare.command_tasks shlex_split py_int n cmd = ([], [ErrMustStartWithCurl cmd]).
Proof.
  intros Hsplit Hhd. unfold MultiLoadFlare.command_tasks. rewrite Hsplit.
  destruct tokens as [|a0 rest]; [reflexivity|].
  destruct (String.eqb_spec a0 "curl") as [->|Hne]; [now elim Hhd|reflexivity].
Qed.

(** What [main] does after the commands are read depends on [all_tasks]
    alone. *)
Lemma multi_main_same_tasks (subprocess_run : Z -> list string -> proc_outcome)
    (sched : nat -> nat) (cmds cmds' : list string) (n c : Z) :
  fst (MultiLoadFlare.all_commands shlex_split py_int n cmds)
  = fst (MultiLoadFlare.all_commands shlex_split py_int n cmds') ->
  let R := MultiLoadFlare.main shlex_split py_int subprocess_run sched cmds n c in
  let R' := MultiLoadFlare.main shlex_split py_int subprocess_run sched cmds' n c in
  submitted R = submitted R' /\ executed R = executed R'
  /\ max_workers R = max_workers R' /\ finish R = finish R'.
Proof.
  intros Heq R R'. subst R R'. unfold MultiLoadFlare.main.
  destruct (MultiLoadFlare.all_commands shlex_split py_int n cmds) as [tasks msgs].
  destruct (MultiLoadFlare.all_commands shlex_split py_int n cmds') as [tasks' msgs'].
  cbn [fst] in Heq. subst tasks'.
  destruct tasks as [|t tasks]; [cbn; auto|].
  destruct (ThreadPoolExecutor c); cbn; auto.
Qed.

End Templates.

(** C9: a command whose first token is not curl (or that has no token) is
    turned down before anything is dispatched for it.  [load_flare.py] prints
    the error and returns: no pool, no request.  [multi_load_flare.py]
    prints the error for that command only and goes on: the tasks, the
    requests and the end of the run are those of the same command line
    without the offending command. *)
Theorem command_must_start_with_curl :
  (forall shlex_split subprocess_run sched cmd tokens n c,
      shlex_split cmd = Some tokens -> hd_error tokens <> Some "curl" ->
      LoadFlare.main shlex_split subprocess_run sched cmd n c
      = mkRun [ErrMustStartWithCurl cmd] None [] []
              (Returned (ErrMustStartWithCurl cmd)))
  /\ (forall shlex_split py_int subprocess_run sched before bad after tokens n c,
      shlex_split bad = Some tokens -> hd_error tokens <> Some "curl" ->
      let all := MultiLoadFlare.all_commands shlex_split py_int n in
      let R := MultiLoadFlare.main shlex_split py_int subprocess_run sched
                 (before ++ bad :: after) n c in
      let R' := MultiLoadFlare.main shlex_split py_int subprocess_run sched
                  (before ++ after) n c in
      fst (all (before ++ bad :: after)%list) = fst (all (before ++ after)%list)
      /\ snd (all (before ++ bad :: after)%list)
         = (snd (all before) ++ ErrMustStartWithCurl bad :: snd (all after))%list
      /\ submitted R = submitted R' /\ executed R = executed R'
      /\ max_workers R = max_workers R' /\ finish R = finish R').
Proof.
  split.
  - intros shlex_split subprocess_run sched cmd tokens n c Hsplit Hhd.
    unfold LoadFlare.main. rewrite Hsplit.
    destruct tokens as [|a0 rest]; [reflexivity|].
    destruct (String.eqb_spec a0 "curl") as [->|Hne]; [now elim Hhd|reflexivity].
  - intros shlex_split py_int subprocess_run sched before bad after tokens n c
           Hsplit Hhd all R R'.
    assert (Hfst : fst (all (before ++ bad :: after)%list) = fst (all (before ++ after)%list)).
    { subst all. rewrite !all_commands_app, all_commands_cons.
      rewrite (command_tasks_not_curl _ _ n bad tokens Hsplit Hhd). reflexivity. }
    split; [exact Hfst|]. split.
    + subst all. rewrite !all_commands_app, all_commands_cons.
      rewrite (command_tasks_not_curl _ _ n bad tokens Hsplit Hhd). reflexivity.
    + apply multi_main_same_tasks. exact Hfst.
Qed.

Lemma command_must_start_with_curl_witness :
  finish (LoadFlare.main sample_split sample_ok fifo "wget http://h/x" 5 2)
  = Returned (ErrMustStartWithCurl "wget http://h/x")
  /\ finish (MultiLoadFlare.main sample_split sample_int sample_ok fifo
               ["curl http://h/x"; "wget http://h/y"; "curl http://h/z -n 2"] 1 2)
     = Summary (mkReport 3 (mkCounters 3 0 0 0)).
Proof.
  destruct command_must_start_with_curl as [Hs Hm]. split.
  - rewrite (Hs sample_split sample_ok fifo "wget http://h/x" ["wget"; "http://h/x"] 5 2);
      [reflexivity | reflexivity | discriminate].
  - destruct (Hm sample_split sample_int sample_ok fifo
                ["curl http://h/x"] "wget http://h/y" ["curl http://h/z -n 2"]
                ["wget"; "http://h/y"] 1 2)
      as (_ & _ & _ & _ & _ & Hfin); [reflexivity | discriminate |].
    cbn [app] in Hfin. rewrite Hfin. reflexivity.
Defined.

(** ** The command line of one call *)

(** The loop with its [skip_next] flag computes [without_write_out]. *)
Lemma copy_arguments_spec (args : list string) :
  forall acc,
    MultiLoadFlare.copy_arguments false args acc = (acc ++ without_write_out args)%list
    /\ MultiLoadFlare.copy_arguments true args acc
       = (acc ++ without_write_out (tl args))%list.
Proof.
  induction args as [|arg rest IH]; intros acc.
  - cbn. now rewrite app_nil_r.
  - cbn [MultiLoadFlare.copy_arguments without_write_out tl].
    split; [|apply IH].
    unfold is_write_out_flag.
    destruct ((arg =? "-w")%string || (arg =? "--write-out")%string).
    + destruct (IH acc) as [_ ->]. now destruct rest.
    + destruct (IH (acc ++ [arg])%list) as [-> _]. now rewrite <- app_assoc.
Qed.

Lemma without_write_out_no_flag (args : list string) :
  (forall x, In x (without_write_out args) -> is_write_out_flag x = false)
  /\ (forall x, In x (without_write_out (tl args)) -> is_write_out_flag x = false).
Proof.
  induction args as [|arg rest [IH1 IH2]]; [split; intros x []|].
  split; [|exact IH1].
  cbn [without_write_out]. destruct (is_write_out_flag arg) eqn:Harg.
  - destruct rest; [intros x []|exact IH2].
  - intros x [<-|Hx]; [exact Harg|now apply IH1].
Qed.

Lemma without_write_out_id (args : list string) :
  (forall x, In x args -> is_write_out_flag x = false) -> without_write_out args = args.
Proof.
  induction args as [|arg rest IH]; intros H; [reflexivity|].
  cbn [without_write_out]. rewrite (H arg (or_introl eq_refl)).
  f_equal. apply IH. intros x Hx. apply H. now right.
Qed.

Lemma count_occ_once (x : string) (pre post : list string) :
  ~ In x pre -> ~ In x post -> count_occ string_dec (pre ++ x :: post) x = 1%nat.
Proof.
  intros Hpre Hpost. rewrite count_occ_app. cbn [count_occ].
  destruct (string_dec x x) as [_|Hne]; [|now elim Hne].
  rewrite (proj1 (count_occ_not_In string_dec pre x) Hpre).
  rewrite (proj1 (count_occ_not_In string_dec post x) Hpost). reflexivity.
Qed.

(** C10: the command that [multi_load_flare.py] runs for the arguments
    [a0 :: rest] (with [a0] the program name, not itself [-w]) is [a0], then
    [-s] unless the arguments hold [-s] or [--silent], then [-L] unless they
    hold [-L] or [--location], then [-w] with the format [%{http_code}\n],
    then [rest] without its [-w]/[--write-out] flags and the argument after
    each, the others in order.  So [-w] occurs exactly once, followed by the
    format. *)
Theorem per_call_command_shape (a0 : string) (rest : list string) (Ha0 : a0 <> "-w") :
  let args := a0 :: rest in
  let silent := if negb (contains "-s" args) && negb (contains "--silent" args)
                then ["-s"] else [] in
  let location := if negb (contains "-L" args) && negb (contains "--location" args)
                  then ["-L"] else [] in
  exists argv,
    MultiLoadFlare.modified_command_args args = Ok argv
    /\ argv = (a0 :: silent ++ location
                 ++ "-w" :: http_code_format :: without_write_out rest)%list
    /\ ~ In "-w" (a0 :: silent ++ location)%list
    /\ ~ In "-w" (http_code_format :: without_write_out rest)
    /\ ~ In "--write-out" (without_write_out rest)
    /\ count_occ string_dec argv "-w" = 1%nat
    /\ (~ In "-s" args -> ~ In "--silent" args -> In "-s" argv)
    /\ (~ In "-L" args -> ~ In "--location" args -> In "-L" argv)
    /\ ((forall x, In x rest -> is_write_out_flag x = false) ->
        argv = (a0 :: silent ++ location ++ "-w" :: http_code_format :: rest)%list).
Proof.
  intros args silent location.
  assert (Hnow : ~ In "-w" (without_write_out rest)
                 /\ ~ In "--write-out" (without_write_out rest)).
  { destruct (without_write_out_no_flag rest) as [H _].
    split; intros Hin; apply H in Hin; discriminate. }
  assert (Hpre : ~ In "-w" (a0 :: silent ++ location)%list).
  { intros [H|H]; [congruence|].
    apply in_app_or in H. subst silent location.
    destruct H as [H|H];
      [destruct (negb (contains "-s" args) && negb (contains "--silent" args))
      |destruct (negb (contains "-L" args) && negb (contains "--location" args))];
      cbn in H; intuition discriminate. }
  assert (Hpost : ~ In "-w" (http_code_format :: without_write_out rest)).
  { intros [H|H]; [discriminate|]. now apply Hnow. }
  exists (a0 :: silent ++ location
            ++ "-w" :: http_code_format :: without_write_out rest)%list.
  split; [|split; [reflexivity|]].
  - subst silent location args.
    unfold MultiLoadFlare.modified_command_args. cbv zeta.
    rewrite (proj1 (copy_arguments_spec rest _)).
    destruct (negb (contains "-s" (a0 :: rest)) && negb (contains "--silent" (a0 :: rest)));
      destruct (negb (contains "-L" (a0 :: rest))
                && negb (contains "--location" (a0 :: rest)));
      reflexivity.
  - split; [exact Hpre|]. split; [exact Hpost|]. split; [apply Hnow|].
    split; [|split; [|split]].
    + replace (a0 :: silent ++ location
                 ++ "-w" :: http_code_format :: without_write_out rest)%list
        with ((a0 :: silent ++ location)
                 ++ "-w" :: http_code_format :: without_write_out rest)%list
        by (cbn [app]; now rewrite <- app_assoc).
      apply count_occ_once; assumption.
    + intros Hs Hsil. right. apply in_or_app. left. subst silent.
      destruct (contains "-s" args) eqn:E1.
      { apply existsb_exists in E1 as (x & Hx & Heq).
        apply String.eqb_eq in Heq. subst x. contradiction. }
      destruct (contains "--silent" args) eqn:E2.
      { apply existsb_exists in E2 as (x & Hx & Heq).
        apply String.eqb_eq in Heq. subst x. contradiction. }
      now left.
    + intros Hl Hloc. right. apply in_or_app. right. apply in_or_app. left.
      subst location.
      destruct (contains "-L" args) eqn:E1.
      { apply existsb_exists in E1 as (x & Hx & Heq).
        apply String.eqb_eq in Heq. subst x. contradiction. }
      destruct (contains "--location" args) eqn:E2.
      { apply existsb_exists in E2 as (x & Hx & Heq).
        apply String.eqb_eq in Heq. subst x. contradiction. }
      now left.
    + intros Hnone. now rewrite (without_write_out_id rest Hnone).
Qed.

Lemma per_call_command_shape_witness :
  MultiLoadFlare.modified_command_args
    ["curl"; "--silent"; "-w"; "%{json}"; "-o"; "out"; "http://h/x"]
  = Ok ["curl"; "-L"; "-w"; http_code_format; "--silent"; "-o"; "out"; "http://h/x"].
Proof.
  destruct (per_call_command_shape "curl"
              ["--silent"; "-w"; "%{json}"; "-o"; "out"; "http://h/x"])
    as (argv & Hargv & Hshape & _); [discriminate|].
  rewrite Hargv, Hshape. reflexivity.
Defined.

(** ** Flags embedded in a command *)

Lemma list_ind2 {A : Type} (P : list A -> Prop) :
  P [] -> (forall a l, P l -> P (tl l) -> P (a :: l)) -> forall l, P l.
Proof.
  intros Hnil Hcons l.
  enough (H : P l /\ P (tl l)) by apply H.
  induction l as [|a l [IH1 IH2]]; [split; exact Hnil|].
  split; [apply Hcons; assumption|exact IH1].
Qed.

Lemma requests_flag_dash (x : string) :
  MultiLoadFlare.is_requests_flag x = true -> startswith_dash x = true.
Proof.
  unfold MultiLoadFlare.is_requests_flag. intros H.
  apply orb_true_iff in H as [H|H]; apply String.eqb_eq in H; subst; reflexivity.
Qed.

Lemma concurrency_flag_dash (x : string) :
  MultiLoadFlare.is_concurrency_flag x = true -> startswith_dash x = true.
Proof.
  unfold MultiLoadFlare.is_concurrency_flag. intros H.
  apply orb_true_iff in H as [H|H]; apply String.eqb_eq in H; subst; reflexivity.
Qed.

Lemma requests_flag_not_concurrency (x : string) :
  MultiLoadFlare.is_requests_flag x = true -> MultiLoadFlare.is_concurrency_flag x = false.
Proof.
  unfold MultiLoadFlare.is_requests_flag. intros H.
  apply orb_true_iff in H as [H|H]; apply String.eqb_eq in H; subst; reflexivity.
Qed.

Lemma extends_refl (st : MultiLoadFlare.parse_state) : extends st st.
Proof.
  exists [], []. rewrite !app_nil_r.
  split; [reflexivity|]. split; [reflexivity|]. intros x [].
Qed.

Lemma extends_trans (st1 st2 st3 : MultiLoadFlare.parse_state) :
  extends st1 st2 -> extends st2 st3 -> extends st1 st3.
Proof.
  intros (e1 & m1 & Hf1 & Hw1 & Hx1) (e2 & m2 & Hf2 & Hw2 & Hx2).
  exists (e1 ++ e2)%list, (m1 ++ m2)%list.
  rewrite Hf2, Hw2, Hf1, Hw1, <- !app_assoc.
  split; [reflexivity|]. split; [reflexivity|].
  intros x Hx. apply in_app_or in Hx as [Hx|Hx]; auto.
Qed.

Lemma extends_warning (st : MultiLoadFlare.parse_state) (m : message) :
  extends st (MultiLoadFlare.mkParse (MultiLoadFlare.per_cmd_requests st)
                (MultiLoadFlare.final_curl_args st)
                (MultiLoadFlare.warnings st ++ [m])%list).
Proof.
  exists [], [m]. cbn. rewrite app_nil_r.
  split; [reflexivity|]. split; [reflexivity|]. intros x [].
Qed.

Lemma extends_count (st : MultiLoadFlare.parse_state) (n : Z) :
  extends st (MultiLoadFlare.mkParse n (MultiLoadFlare.final_curl_args st)
                (MultiLoadFlare.warnings st)).
Proof.
  exists [], []. cbn. rewrite !app_nil_r.
  split; [reflexivity|]. split; [reflexivity|]. intros x [].
Qed.

Lemma extends_argument (st : MultiLoadFlare.parse_state) (arg : string) :
  MultiLoadFlare.is_requests_flag arg = false ->
  MultiLoadFlare.is_concurrency_flag arg = false ->
  extends st (MultiLoadFlare.mkParse (MultiLoadFlare.per_cmd_requests st)
                (MultiLoadFlare.final_curl_args st ++ [arg])%list
                (MultiLoadFlare.warnings st)).
Proof.
  intros Hreq Hcon. exists [arg], []. cbn. rewrite app_nil_r.
  split; [reflexivity|]. split; [reflexivity|].
  intros x [<-|[]]. split; assumption.
Qed.

Section Parse.

Variable py_int : string -> option Z.
Variable cmd : string.

Local Abbreviation parse := (MultiLoadFlare.parse_arguments py_int cmd).

(** Tokens before the first [-n]/[--requests] leave the count alone, and a
    [-c] at their end does not swallow a following flag. *)
Lemma parse_prefix (pre : list string) :
  (forall x, In x pre -> MultiLoadFlare.is_requests_flag x = false) ->
  forall tail st,
    (tail = [] \/ exists t tail', tail = t :: tail' /\ startswith_dash t = true) ->
    exists st',
      parse (pre ++ tail)%list st = parse tail st'
      /\ MultiLoadFlare.per_cmd_requests st' = MultiLoadFlare.per_cmd_requests st.
Proof.
  induction pre as [|arg rest IH1 IH2] using list_ind2; intros Hpre tail st Htail.
  - exists st. split; reflexivity.
  - assert (Harg : MultiLoadFlare.is_requests_flag arg = false)
      by (apply Hpre; now left).
    assert (Hrest : forall x, In x rest -> MultiLoadFlare.is_requests_flag x = false)
      by (intros x Hx; apply Hpre; now right).
    cbn [app MultiLoadFlare.parse_arguments]. rewrite Harg.
    destruct (MultiLoadFlare.is_concurrency_flag arg).
    + destruct rest as [|value rest'].
      * cbn [app]. destruct Htail as [->|(t & tail' & -> & Ht)].
        -- eexists. split; reflexivity.
        -- rewrite Ht. cbn [negb]. eexists. split; reflexivity.
      * cbn [app]. destruct (negb (startswith_dash value)).
        -- destruct (IH2 (fun x Hx => Hrest x (or_intror Hx)) tail
                       (MultiLoadFlare.mkParse (MultiLoadFlare.per_cmd_requests st)
                          (MultiLoadFlare.final_curl_args st)
                          (MultiLoadFlare.warnings st
                             ++ [WarnConcurrencyIgnored arg cmd])%list) Htail)
             as (st' & Heq & Hper).
           exists st'. split; [exact Heq|exact Hper].
        -- destruct (IH1 Hrest tail
                       (MultiLoadFlare.mkParse (MultiLoadFlare.per_cmd_requests st)
                          (MultiLoadFlare.final_curl_args st)
                          (MultiLoadFlare.warnings st
                             ++ [WarnConcurrencyIgnored arg cmd])%list) Htail)
             as (st' & Heq & Hper).
           exists st'. split; [exact Heq|exact Hper].
    + destruct (IH1 Hrest tail
                  (MultiLoadFlare.mkParse (MultiLoadFlare.per_cmd_requests st)
                     (MultiLoadFlare.final_curl_args st ++ [arg])%list
                     (MultiLoadFlare.warnings st)) Htail)
        as (st' & Heq & Hper).
      exists st'. split; [exact Heq|exact Hper].
Qed.

Lemma parse_keeps_count (args : list string) (st : MultiLoadFlare.parse_state) :
  (forall x, In x args -> MultiLoadFlare.is_requests_flag x = false) ->
  MultiLoadFlare.per_cmd_requests (parse args st) = MultiLoadFlare.per_cmd_requests st.
Proof.
  intros Hargs.
  destruct (parse_prefix args Hargs [] st (or_introl eq_refl)) as (st' & Heq & Hper).
  rewrite app_nil_r in Heq. rewrite Heq. exact Hper.
Qed.

(** The loop only appends to [final_curl_args] and to the warnings. *)
Lemma parse_extends (args : list string) :
  forall st, extends st (parse args st).
Proof.
  induction args as [|arg rest IH1 IH2] using list_ind2; intros st.
  - apply extends_refl.
  - cbn [MultiLoadFlare.parse_arguments].
    destruct (MultiLoadFlare.is_requests_flag arg) eqn:Hreq.
    + destruct rest as [|value rest'].
      * eapply extends_trans; [|apply IH1]. apply extends_warning.
      * cbn [tl] in IH2. destruct (py_int value).
        -- eapply extends_trans; [|apply IH2]. apply extends_count.
        -- eapply extends_trans; [|apply IH1]. apply extends_warning.
    + destruct (MultiLoadFlare.is_concurrency_flag arg) eqn:Hcon.
      * destruct rest as [|value rest'].
        -- eapply extends_trans; [|apply IH1]. apply extends_warning.
        -- cbn [tl] in IH2. destruct (negb (startswith_dash value)).
           ++ eapply extends_trans; [|apply IH2]. apply extends_warning.
           ++ eapply extends_trans; [|apply IH1]. apply extends_warning.
      * eapply extends_trans; [|apply IH1]. now apply extends_argument.
Qed.

End Parse.

Lemma extends_keeps_warning (st st' : MultiLoadFlare.parse_state) (m : message) :
  extends st st' -> In m (MultiLoadFlare.warnings st) -> In m (MultiLoadFlare.warnings st').
Proof.
  intros (extra & more & _ & Hw & _) Hin. rewrite Hw. apply in_or_app. now left.
Qed.

Section Embedded.

Variable shlex_split : string -> option (list string).
Variable py_int : string -> option Z.
Variable cmd : string.

Local Abbreviation parse := (MultiLoadFlare.parse_arguments py_int cmd).

(** Every [-c]/[--concurrency] token that the loop reaches is answered by a
    warning; [int()] rejects such a token, so it is never taken for the
    value of a [-n]. *)
Lemma parse_warns (flag : string) :
  MultiLoadFlare.is_concurrency_flag flag = true -> py_int flag = None ->
  forall args, In flag args ->
  forall st, In (WarnConcurrencyIgnored flag cmd) (MultiLoadFlare.warnings (parse args st)).
Proof.
  intros Hflag Hint args.
  induction args as [|arg rest IH1 IH2] using list_ind2; intros Hin st; [destruct Hin|].
  cbn [MultiLoadFlare.parse_arguments].
  destruct (MultiLoadFlare.is_requests_flag arg) eqn:Hreq.
  - destruct Hin as [->|Hin];
      [apply requests_flag_not_concurrency in Hreq; congruence|].
    destruct rest as [|value rest']; [destruct Hin|]. cbn [tl] in IH2.
    destruct (py_int value) eqn:Hvalue.
    + destruct Hin as [->|Hin]; [congruence|]. now apply IH2.
    + now apply IH1.
  - destruct (MultiLoadFlare.is_concurrency_flag arg) eqn:Hcon.
    + destruct Hin as [->|Hin].
      * assert (Hnow : forall l,
                  In (WarnConcurrencyIgnored flag cmd)
                     (MultiLoadFlare.warnings
                        (parse l (MultiLoadFlare.mkParse
                                    (MultiLoadFlare.per_cmd_requests st)
                                    (MultiLoadFlare.final_curl_args st)
                                    (MultiLoadFlare.warnings st
                                       ++ [WarnConcurrencyIgnored flag cmd])%list)))).
        { intros l. eapply extends_keeps_warning; [apply parse_extends|].
          cbn. apply in_or_app. right. now left. }
        destruct rest as [|value rest']; [apply Hnow|].
        destruct (negb (startswith_dash value)); apply Hnow.
      * destruct rest as [|value rest']; [destruct Hin|]. cbn [tl] in IH2.
        destruct (startswith_dash value) eqn:Hdash; cbn [negb].
        -- now apply IH1.
        -- destruct Hin as [->|Hin];
             [apply concurrency_flag_dash in Hflag; congruence|].
           now apply IH2.
    + destruct Hin as [->|Hin]; [congruence|]. now apply IH1.
Qed.

(** The tasks of a command that starts with curl. *)
Lemma command_tasks_curl (n : Z) (tokens : list string) :
  shlex_split cmd = Some ("curl" :: tokens) ->
  let st := parse tokens (MultiLoadFlare.mkParse n ["curl"] []) in
  MultiLoadFlare.command_tasks shlex_split py_int n cmd
  = (map (fun _ => (MultiLoadFlare.final_curl_args st, cmd))
         (range 0 (MultiLoadFlare.per_cmd_requests st)),
     MultiLoadFlare.warnings st)
  /\ exists extra,
       MultiLoadFlare.final_curl_args st = "curl" :: extra
       /\ forall x, In x extra ->
            MultiLoadFlare.is_requests_flag x = false
            /\ MultiLoadFlare.is_concurrency_flag x = false.
Proof.
  intros Hsplit st.
  destruct (parse_extends py_int cmd tokens (MultiLoadFlare.mkParse n ["curl"] []))
    as (extra & more & Hf & _ & Hx).
  fold st in Hf. cbn in Hf.
  split; [|exists extra; split; assumption].
  unfold MultiLoadFlare.command_tasks. rewrite Hsplit.
  cbn [String.eqb Ascii.eqb negb MultiLoadFlare.parse_arguments
       MultiLoadFlare.is_requests_flag MultiLoadFlare.is_concurrency_flag].
  simpl. fold st. rewrite Hf. reflexivity.
Qed.

End Embedded.

(** C8: in [multi_load_flare.py] a command that starts with curl and embeds
    one [-n <count>] (or [--requests <count>]) whose value [int()] accepts
    adds exactly [count] tasks, whatever the global count; a command without
    such a flag adds the global count of tasks.  The pool is created with
    the global concurrency and nothing else; no [-c]/[--concurrency] token
    (and no [-n]/[--requests] token) reaches the curl command, and each such
    [-c] token is answered by a warning. *)
Theorem embedded_count_and_global_concurrency :
  (forall shlex_split py_int n cmd pre flag value post count,
      shlex_split cmd = Some ("curl" :: pre ++ flag :: value :: post)%list ->
      MultiLoadFlare.is_requests_flag flag = true ->
      py_int value = Some count -> 0 <= count ->
      (forall x, In x pre -> MultiLoadFlare.is_requests_flag x = false) ->
      (forall x, In x post -> MultiLoadFlare.is_requests_flag x = false) ->
      Z.of_nat (List.length (fst (MultiLoadFlare.command_tasks shlex_split py_int n cmd)))
      = count)
  /\ (forall shlex_split py_int n cmd tokens,
      shlex_split cmd = Some ("curl" :: tokens) -> 0 <= n ->
      (forall x, In x tokens -> MultiLoadFlare.is_requests_flag x = false) ->
      Z.of_nat (List.length (fst (MultiLoadFlare.command_tasks shlex_split py_int n cmd)))
      = n)
  /\ (forall shlex_split py_int subprocess_run sched cmds n c,
      let R := MultiLoadFlare.main shlex_split py_int subprocess_run sched cmds n c in
      max_workers R = None \/ max_workers R = Some c)
  /\ (forall shlex_split py_int n cmd tokens task x,
      shlex_split cmd = Some ("curl" :: tokens) ->
      In task (fst (MultiLoadFlare.command_tasks shlex_split py_int n cmd)) ->
      In x (fst task) ->
      MultiLoadFlare.is_concurrency_flag x = false
      /\ MultiLoadFlare.is_requests_flag x = false)
  /\ (forall shlex_split py_int n cmd tokens flag,
      shlex_split cmd = Some ("curl" :: tokens) ->
      In flag tokens -> MultiLoadFlare.is_concurrency_flag flag = true ->
      py_int flag = None ->
      In (WarnConcurrencyIgnored flag cmd)
         (snd (MultiLoadFlare.command_tasks shlex_split py_int n cmd))).
Proof.
  split; [|split; [|split; [|split]]].
  - intros shlex_split py_int n cmd pre flag value post count
           Hsplit Hflag Hvalue Hcount Hpre Hpost.
    destruct (command_tasks_curl shlex_split py_int cmd n _ Hsplit) as [-> _].
    cbn [fst]. rewrite length_map, range_length.
    destruct (parse_prefix py_int cmd pre Hpre (flag :: value :: post)
                (MultiLoadFlare.mkParse n ["curl"] []))
      as (st' & -> & _).
    { right. exists flag, (value :: post). split; [reflexivity|].
      now apply requests_flag_dash. }
    cbn [MultiLoadFlare.parse_arguments]. rewrite Hflag, Hvalue.
    rewrite (parse_keeps_count py_int cmd post _ Hpost). cbn. lia.
  - intros shlex_split py_int n cmd tokens Hsplit Hn Htokens.
    destruct (command_tasks_curl shlex_split py_int cmd n _ Hsplit) as [-> _].
    cbn [fst]. rewrite length_map, range_length.
    rewrite (parse_keeps_count py_int cmd tokens _ Htokens). cbn. lia.
  - intros shlex_split py_int subprocess_run sched cmds n c R. subst R.
    unfold MultiLoadFlare.main.
    destruct (MultiLoadFlare.all_commands shlex_split py_int n cmds) as [[|t tasks] msgs];
      [now left|].
    unfold ThreadPoolExecutor. destruct (c <=? 0); [now left|now right].
  - intros shlex_split py_int n cmd tokens task x Hsplit Htask Hx.
    destruct (command_tasks_curl shlex_split py_int cmd n _ Hsplit)
      as [Heq (extra & Hfinal & Hextra)].
    rewrite Heq in Htask. cbn [fst] in Htask.
    apply in_map_iff in Htask as (i & <- & _). cbn [fst] in Hx.
    rewrite Hfinal in Hx. destruct Hx as [<-|Hx]; [split; reflexivity|].
    destruct (Hextra x Hx). split; assumption.
  - intros shlex_split py_int n cmd tokens flag Hsplit Hin Hflag Hint.
    destruct (command_tasks_curl shlex_split py_int cmd n _ Hsplit) as [-> _].
    cbn [snd]. now apply parse_warns.
Qed.

Lemma embedded_count_and_global_concurrency_witness :
  List.length (fst (MultiLoadFlare.command_tasks sample_split sample_int 1
                      "curl -c 8 http://h/x -n 5 -H a:b")) = 5%nat
  /\ List.length (fst (MultiLoadFlare.command_tasks sample_split sample_int 3
                         "curl http://h/x")) = 3%nat
  /\ In (WarnConcurrencyIgnored "-c" "curl -c 8 http://h/x -n 5 -H a:b")
        (snd (MultiLoadFlare.command_tasks sample_split sample_int 1
                "curl -c 8 http://h/x -n 5 -H a:b")).
Proof.
  destruct embedded_count_and_global_concurrency as (Hn & Hdefault & _ & _ & Hwarn).
  split; [|split].
  - apply Nat2Z.inj.
    apply (Hn sample_split sample_int 1 "curl -c 8 http://h/x -n 5 -H a:b"
              ["-c"; "8"; "http://h/x"] "-n" "5" ["-H"; "a:b"] 5);
      try reflexivity; try lia;
      intros x Hx; cbn in Hx; intuition (subst; reflexivity).
  - apply Nat2Z.inj.
    apply (Hdefault sample_split sample_int 3 "curl http://h/x" ["http://h/x"]);
      try reflexivity; try lia;
      intros x Hx; cbn in Hx; intuition (subst; reflexivity).
  - apply (Hwarn sample_split sample_int 1 "curl -c 8 http://h/x -n 5 -H a:b"
                 ["-c"; "8"; "http://h/x"; "-n"; "5"; "-H"; "a:b"] "-c");
      try reflexivity. cbn. auto.
Defined.

(** ** Further properties of whole runs *)

Section Order.

Variable collect : counters -> py_result (Z * option Z) -> counters.
Hypothesis collect_bumps :
  forall f, exists k, forall c, collect c f = bump k c.

Lemma collect_comm (c : counters) (f g : py_result (Z * option Z)) :
  collect (collect c f) g = collect (collect c g) f.
Proof.
  destruct (collect_bumps f) as [k Hk], (collect_bumps g) as [k' Hk'].
  rewrite !Hk, !Hk'. apply bump_comm.
Qed.

(** The tally does not depend on the order of the futures. *)
Lemma fold_collect_perm (l l' : list (py_result (Z * option Z))) :
  Permutation l l' -> forall c, fold_left collect l c = fold_left collect l' c.
Proof.
  induction 1 as [|x l l' _ IH|x y l|l l' l'' _ IH1 _ IH2]; intros c.
  - reflexivity.
  - cbn [fold_left]. apply IH.
  - cbn [fold_left]. now rewrite collect_comm.
  - now rewrite IH1.
Qed.

(** Futures that all count as [k] give [n] in that counter alone. *)
Lemma fold_collect_uniform (k : outcome_class) (l : list (py_result (Z * option Z))) :
  (forall f, In f l -> forall c, collect c f = bump k c) ->
  forall c, fold_left collect l c = Nat.iter (List.length l) (bump k) c.
Proof.
  induction l as [|f l IH]; intros Hall c; [reflexivity|].
  cbn [fold_left List.length]. rewrite (Hall f (or_introl eq_refl)).
  rewrite IH by (intros g Hg; apply Hall; now right).
  now rewrite Nat.iter_succ_r.
Qed.

End Order.

Lemma iter_bump (k : outcome_class) (n : nat) :
  Nat.iter n (bump k) zero_counters
  = match k with
    | Success => mkCounters (Z.of_nat n) 0 0 0
    | ClientError => mkCounters 0 (Z.of_nat n) 0 0
    | ServerError => mkCounters 0 0 (Z.of_nat n) 0
    | OtherFailure => mkCounters 0 0 0 (Z.of_nat n)
    end.
Proof.
  induction n as [|n IH]; [now destruct k|].
  rewrite Nat.iter_succ, IH. destruct k; unfold bump; cbn [success_count
    client_error_count server_error_count other_failure_count]; f_equal; lia.
Qed.

(** X2: the final summary does not depend on the order in which the requests
    complete: for every scheduler it is the summary obtained by tallying the
    results in submission order.  Hence two runs that differ in the
    completion order only end alike. *)
Theorem summary_independent_of_completion_order :
  (forall shlex_split subprocess_run sched sched' cmd n c,
      finish (LoadFlare.main shlex_split subprocess_run sched cmd n c)
      = finish (LoadFlare.main shlex_split subprocess_run sched' cmd n c))
  /\ (forall shlex_split py_int subprocess_run sched sched' cmds n c,
      finish (MultiLoadFlare.main shlex_split py_int subprocess_run sched cmds n c)
      = finish (MultiLoadFlare.main shlex_split py_int subprocess_run sched' cmds n c))
  /\ (forall (futures : list (py_result (Z * option Z))) sched,
      fold_left LoadFlare.collect (as_completed sched futures) zero_counters
      = fold_left LoadFlare.collect futures zero_counters)
  /\ (forall (futures : list (py_result (Z * option Z))) sched,
      fold_left MultiLoadFlare.collect (as_completed sched futures) zero_counters
      = fold_left MultiLoadFlare.collect futures zero_counters).
Proof.
  assert (Hs : forall (futures : list (py_result (Z * option Z))) sched,
      fold_left LoadFlare.collect (as_completed sched futures) zero_counters
      = fold_left LoadFlare.collect futures zero_counters).
  { intros futures sched.
    apply (fold_collect_perm _ single_collect_bumps), as_completed_perm. }
  assert (Hm : forall (futures : list (py_result (Z * option Z))) sched,
      fold_left MultiLoadFlare.collect (as_completed sched futures) zero_counters
      = fold_left MultiLoadFlare.collect futures zero_counters).
  { intros futures sched.
    apply (fold_collect_perm _ multi_collect_bumps), as_completed_perm. }
  split; [|split; [|split; assumption]].
  - intros shlex_split subprocess_run sched sched' cmd n c. unfold LoadFlare.main.
    destruct (shlex_split cmd) as [[|a0 rest]|]; try reflexivity.
    destruct (negb (a0 =? "curl")%string); [reflexivity|].
    destruct (ThreadPoolExecutor c); [|reflexivity].
    cbn [finish]. now rewrite !Hs.
  - intros shlex_split py_int subprocess_run sched sched' cmds n c.
    unfold MultiLoadFlare.main.
    destruct (MultiLoadFlare.all_commands shlex_split py_int n cmds) as [[|t tasks] msgs];
      [reflexivity|].
    destruct (ThreadPoolExecutor c); [|reflexivity].
    cbn [finish]. now rewrite !Hm.
Qed.

(** X3: when every request of a [load_flare.py] run ends in the same class,
    the summary shows the request count in that class and zero in the other
    three; so [n] requests that all exit with 0 and a status in [[200,400)]
    give [n] successes. *)
Theorem single_uniform_run (shlex_split : string -> option (list string))
    (subprocess_run : Z -> list string -> proc_outcome) (sched : nat -> nat)
    (cmd : string) (rest : list string) (n c : Z) (k : outcome_class) :
  shlex_split cmd = Some ("curl" :: rest) -> 0 < c -> 0 <= n ->
  (forall i, 1 <= i <= n -> forall cs,
      LoadFlare.collect cs (LoadFlare.execute_curl (subprocess_run i) ("curl" :: rest))
      = bump k cs) ->
  finish (LoadFlare.main shlex_split subprocess_run sched cmd n c)
  = Summary (mkReport n
      match k with
      | Success => mkCounters n 0 0 0
      | ClientError => mkCounters 0 n 0 0
      | ServerError => mkCounters 0 0 n 0
      | OtherFailure => mkCounters 0 0 0 n
      end).
Proof.
  intros Hsplit Hc Hn Hall.
  rewrite (single_main_runs _ _ _ _ rest _ _ Hsplit Hc). cbn [finish].
  rewrite (fold_collect_perm _ single_collect_bumps _ _ (as_completed_perm _ _)).
  rewrite (fold_collect_uniform LoadFlare.collect k).
  - rewrite iter_bump, length_map, range_length.
    replace (n + 1 - 1) with n by lia. rewrite Z2Nat.id by lia. reflexivity.
  - intros f Hf cs. apply in_map_iff in Hf as (i & <- & Hi).
    apply Hall. unfold range in Hi. apply in_map_iff in Hi as (j & <- & Hj).
    apply in_seq in Hj. lia.
Qed.

Lemma single_uniform_run_witness :
  finish (LoadFlare.main sample_split sample_ok (fun s => (s * 7)%nat)
            "curl http://h/x" 10 3)
  = Summary (mkReport 10 (mkCounters 10 0 0 0)).
Proof.
  apply (single_uniform_run sample_split sample_ok _ "curl http://h/x" ["http://h/x"]
           10 3 Success); try reflexivity; lia.
Defined.

Lemma map_fst_combine_eq {A B : Type} (l : list A) (l' : list B) :
  List.length l = List.length l' -> map fst (combine l l') = l.
Proof.
  revert l'. induction l as [|a l IH]; intros [|b l'] H; try discriminate; [reflexivity|].
  cbn [combine map fst]. f_equal. apply IH. now injection H.
Qed.

Lemma map_snd_combine_eq {A B C : Type} (g : B -> C) (l : list A) (l' : list B) :
  List.length l = List.length l' -> map (fun t => g (snd t)) (combine l l') = map g l'.
Proof.
  revert l'. induction l as [|a l IH]; intros [|b l'] H; try discriminate; [reflexivity|].
  cbn [combine map snd]. f_equal. apply IH. now injection H.
Qed.







(** The tasks that one command adds carry the command as label and argument
    lists that start with curl and hold none of the four custom flags. *)
Lemma command_tasks_shape (shlex_split : string -> option (list string))
    (py_int : string -> option Z) (n : Z) (cmd : string) (t : list string * string) :
  In t (fst (MultiLoadFlare.command_tasks shlex_split py_int n cmd)) ->
  snd t = cmd
  /\ exists extra, fst t = "curl" :: extra
       /\ forall x, In x extra ->
            MultiLoadFlare.is_requests_flag x = false
            /\ MultiLoadFlare.is_concurrency_flag x = false.
Proof.
  intros Hin.
  destruct (shlex_split cmd) as [[|a0 tokens]|] eqn:Hsplit;
    try (unfold MultiLoadFlare.command_tasks in Hin; rewrite Hsplit in Hin;
         now destruct Hin).
  destruct (String.eqb_spec a0 "curl") as [->|Hne].
  - destruct (command_tasks_curl shlex_split py_int cmd n tokens Hsplit)
      as [Heq (extra & Hfinal & Hextra)].
    rewrite Heq in Hin. cbn [fst] in Hin. apply in_map_iff in Hin as (i & <- & _).
    cbn [fst snd]. split; [reflexivity|]. exists extra. split; assumption.
  - unfold MultiLoadFlare.command_tasks in Hin. rewrite Hsplit in Hin.
    destruct (String.eqb_spec a0 "curl") as [Heq|_]; [contradiction|].
    now destruct Hin.
Qed.




(** ** Further properties of the embedded flags *)

Section Flags.

Variable py_int : string -> option Z.
Variable cmd : string.

Local Abbreviation parse := (MultiLoadFlare.parse_arguments py_int cmd).

(** Arguments that are none of the four custom flags are copied. *)
Lemma parse_plain (args : list string) :
  (forall x, In x args ->
     MultiLoadFlare.is_requests_flag x = false
     /\ MultiLoadFlare.is_concurrency_flag x = false) ->
  forall tail st,
    parse (args ++ tail)%list st
    = parse tail (MultiLoadFlare.mkParse (MultiLoadFlare.per_cmd_requests st)
                    (MultiLoadFlare.final_curl_args st ++ args)%list
                    (MultiLoadFlare.warnings st)).
Proof.
  induction args as [|arg rest IH]; intros Hplain tail st.
  - cbn [app]. rewrite app_nil_r. now destruct st.
  - destruct (Hplain arg (or_introl eq_refl)) as [Hreq Hcon].
    cbn [app MultiLoadFlare.parse_arguments]. rewrite Hreq, Hcon.
    rewrite IH by (intros x Hx; apply Hplain; now right).
    cbn [MultiLoadFlare.per_cmd_requests MultiLoadFlare.final_curl_args
         MultiLoadFlare.warnings].
    now rewrite <- app_assoc.
Qed.


(** The loop adds warnings only. *)
Lemma parse_no_argument_error (c0 : string) (args : list string) :
  forall st,
    In (ErrNoValidArguments c0) (MultiLoadFlare.warnings (parse args st)) ->
    In (ErrNoValidArguments c0) (MultiLoadFlare.warnings st).
Proof.
  assert (Hadd : forall (l : list message) m,
             In (ErrNoValidArguments c0) (l ++ [m])%list ->
             m <> ErrNoValidArguments c0 -> In (ErrNoValidArguments c0) l).
  { intros l m Hin Hm. apply in_app_or in Hin as [Hin|[Hin|[]]]; [exact Hin|].
    now elim Hm. }
  induction args as [|arg rest IH1 IH2] using list_ind2; intros st Hin; [exact Hin|].
  cbn [MultiLoadFlare.parse_arguments] in Hin.
  destruct (MultiLoadFlare.is_requests_flag arg).
  - destruct rest as [|value rest'].
    + apply IH1 in Hin. cbn in Hin. eapply Hadd; [exact Hin|discriminate].
    + cbn [tl] in IH2. destruct (py_int value).
      * apply IH2 in Hin. exact Hin.
      * apply IH1 in Hin. cbn in Hin. eapply Hadd; [exact Hin|discriminate].
  - destruct (MultiLoadFlare.is_concurrency_flag arg).
    + destruct rest as [|value rest'].
      * apply IH1 in Hin. cbn in Hin. eapply Hadd; [exact Hin|discriminate].
      * cbn [tl] in IH2. destruct (negb (startswith_dash value));
          [apply IH2 in Hin|apply IH1 in Hin]; cbn in Hin;
          (eapply Hadd; [exact Hin|discriminate]).
    + apply IH1 in Hin. exact Hin.
Qed.

End Flags.

Lemma parse_plain_all (py_int : string -> option Z) (cmd : string) (args : list string)
    (st : MultiLoadFlare.parse_state) :
  (forall x, In x args ->
     MultiLoadFlare.is_requests_flag x = false
     /\ MultiLoadFlare.is_concurrency_flag x = false) ->
  MultiLoadFlare.parse_arguments py_int cmd args st
  = MultiLoadFlare.mkParse (MultiLoadFlare.per_cmd_requests st)
      (MultiLoadFlare.final_curl_args st ++ args)%list (MultiLoadFlare.warnings st).
Proof.
  intros Hplain. rewrite <- (app_nil_r args) at 1.
  now rewrite (parse_plain py_int cmd args Hplain [] st).
Qed.



(** X6: a command that starts with curl and holds none of [-n],
    [--requests], [-c], [--concurrency] is handed on as it is: it adds the
    global count of tasks, each with exactly the command's tokens, and
    prints no warning. *)
Theorem plain_command_is_passed_unchanged (shlex_split : string -> option (list string))
    (py_int : string -> option Z) (n : Z) (cmd : string) (tokens : list string) :
  shlex_split cmd = Some ("curl" :: tokens) ->
  (forall x, In x tokens ->
     MultiLoadFlare.is_requests_flag x = false
     /\ MultiLoadFlare.is_concurrency_flag x = false) ->
  MultiLoadFlare.command_tasks shlex_split py_int n cmd
  = (map (fun _ => ("curl" :: tokens, cmd)) (range 0 n), []).
Proof.
  intros Hsplit Hplain.
  destruct (command_tasks_curl shlex_split py_int cmd n _ Hsplit) as [-> _].
  now rewrite (parse_plain_all py_int cmd tokens _ Hplain).
Qed.

Lemma plain_command_is_passed_unchanged_witness :
  MultiLoadFlare.command_tasks sample_split sample_int 2 "curl -X POST http://h/x"
  = ([(["curl"; "-X"; "POST"; "http://h/x"], "curl -X POST http://h/x");
      (["curl"; "-X"; "POST"; "http://h/x"], "curl -X POST http://h/x")], []).
Proof.
  rewrite (plain_command_is_passed_unchanged sample_split sample_int 2
             "curl -X POST http://h/x" ["-X"; "POST"; "http://h/x"]);
    [reflexivity | reflexivity |].
  intros x Hx; cbn in Hx; intuition (subst; reflexivity).
Defined.

(** X7: the three things an embedded [-n]/[--requests] can lead to, in a
    command that holds no other custom flag.  With a value [int()] accepts,
    flag and value are taken out and the count is that value.  With a value
    [int()] rejects, the flag is taken out, a warning is printed, the count
    stays the global one, and the rejected value stays among the arguments
    given to curl.  As last token, the flag is taken out with a warning. *)
Theorem embedded_requests_flag_outcomes (shlex_split : string -> option (list string))
    (py_int : string -> option Z) (n : Z) (cmd : string)
    (pre : list string) (flag : string) (post : list string) :
  MultiLoadFlare.is_requests_flag flag = true ->
  (forall x, In x (pre ++ post)%list ->
     MultiLoadFlare.is_requests_flag x = false
     /\ MultiLoadFlare.is_concurrency_flag x = false) ->
  (forall value count,
      shlex_split cmd = Some ("curl" :: pre ++ flag :: value :: post)%list ->
      py_int value = Some count ->
      MultiLoadFlare.command_tasks shlex_split py_int n cmd
      = (map (fun _ => (("curl" :: pre ++ post)%list, cmd)) (range 0 count), []))
  /\ (forall value,
      shlex_split cmd = Some ("curl" :: pre ++ flag :: value :: post)%list ->
      py_int value = None ->
      MultiLoadFlare.is_requests_flag value = false ->
      MultiLoadFlare.is_concurrency_flag value = false ->
      MultiLoadFlare.command_tasks shlex_split py_int n cmd
      = (map (fun _ => (("curl" :: pre ++ value :: post)%list, cmd)) (range 0 n),
         [WarnInvalidNumber flag cmd]))
  /\ (shlex_split cmd = Some ("curl" :: pre ++ [flag])%list ->
      MultiLoadFlare.command_tasks shlex_split py_int n cmd
      = (map (fun _ => ("curl" :: pre, cmd)) (range 0 n), [WarnMissingValue flag cmd])).
Proof.
  intros Hflag Hplain.
  assert (Hpre : forall x, In x pre ->
             MultiLoadFlare.is_requests_flag x = false
             /\ MultiLoadFlare.is_concurrency_flag x = false)
    by (intros x Hx; apply Hplain, in_or_app; now left).
  assert (Hpost : forall x, In x post ->
             MultiLoadFlare.is_requests_flag x = false
             /\ MultiLoadFlare.is_concurrency_flag x = false)
    by (intros x Hx; apply Hplain, in_or_app; now right).
  split; [|split].
  - intros value count Hsplit Hvalue.
    destruct (command_tasks_curl shlex_split py_int cmd n _ Hsplit) as [-> _].
    rewrite (parse_plain py_int cmd pre Hpre).
    cbn [MultiLoadFlare.parse_arguments]. rewrite Hflag, Hvalue.
    rewrite (parse_plain_all py_int cmd post _ Hpost). cbn.
    rewrite <- ?app_assoc. reflexivity.
  - intros value Hsplit Hvalue Hreq Hcon.
    destruct (command_tasks_curl shlex_split py_int cmd n _ Hsplit) as [-> _].
    rewrite (parse_plain py_int cmd pre Hpre).
    cbn [MultiLoadFlare.parse_arguments]. rewrite Hflag, Hvalue, Hreq, Hcon.
    rewrite (parse_plain_all py_int cmd post _ Hpost). cbn.
    rewrite <- ?app_assoc. reflexivity.
  - intros Hsplit.
    destruct (command_tasks_curl shlex_split py_int cmd n _ Hsplit) as [-> _].
    rewrite (parse_plain py_int cmd pre Hpre).
    cbn [MultiLoadFlare.parse_arguments]. rewrite Hflag. reflexivity.
Qed.

Lemma embedded_requests_flag_outcomes_witness :
  MultiLoadFlare.command_tasks sample_split sample_int 1 "curl -n many http://h/x"
  = ([(["curl"; "many"; "http://h/x"], "curl -n many http://h/x")],
     [WarnInvalidNumber "-n" "curl -n many http://h/x"]).
Proof.
  destruct (embedded_requests_flag_outcomes sample_split sample_int 1
              "curl -n many http://h/x" [] "-n" ["http://h/x"])
    as (_ & Hbad & _); [reflexivity | |].
  - intros x Hx; cbn in Hx; intuition (subst; reflexivity).
  - rewrite (Hbad "many"); reflexivity.
Defined.

(** X8: an embedded [-c]/[--concurrency] takes the token after it along
    when that token does not start with a dash, whatever the token is: in
    [curl -c http://h/x] the URL is dropped with the flag.  A following
    token that starts with a dash stays.  Either way one warning is printed
    and the count is the global one. *)
Theorem concurrency_flag_takes_next_token (shlex_split : string -> option (list string))
    (py_int : string -> option Z) (n : Z) (cmd : string)
    (pre : list string) (flag : string) (post : list string) :
  MultiLoadFlare.is_concurrency_flag flag = true ->
  (forall x, In x (pre ++ post)%list ->
     MultiLoadFlare.is_requests_flag x = false
     /\ MultiLoadFlare.is_concurrency_flag x = false) ->
  (forall value,
      shlex_split cmd = Some ("curl" :: pre ++ flag :: value :: post)%list ->
      startswith_dash value = false ->
      MultiLoadFlare.command_tasks shlex_split py_int n cmd
      = (map (fun _ => (("curl" :: pre ++ post)%list, cmd)) (range 0 n),
         [WarnConcurrencyIgnored flag cmd]))
  /\ ((post = [] \/ exists t post', post = t :: post' /\ startswith_dash t = true) ->
      shlex_split cmd = Some ("curl" :: pre ++ flag :: post)%list ->
      MultiLoadFlare.command_tasks shlex_split py_int n cmd
      = (map (fun _ => (("curl" :: pre ++ post)%list, cmd)) (range 0 n),
         [WarnConcurrencyIgnored flag cmd])).
Proof.
  intros Hflag Hplain.
  assert (Hnot : MultiLoadFlare.is_requests_flag flag = false).
  { destruct (MultiLoadFlare.is_requests_flag flag) eqn:E; [|reflexivity].
    apply requests_flag_not_concurrency in E. congruence. }
  assert (Hpre : forall x, In x pre ->
             MultiLoadFlare.is_requests_flag x = false
             /\ MultiLoadFlare.is_concurrency_flag x = false)
    by (intros x Hx; apply Hplain, in_or_app; now left).
  assert (Hpost : forall x, In x post ->
             MultiLoadFlare.is_requests_flag x = false
             /\ MultiLoadFlare.is_concurrency_flag x = false)
    by (intros x Hx; apply Hplain, in_or_app; now right).
  split.
  - intros value Hsplit Hdash.
    destruct (command_tasks_curl shlex_split py_int cmd n _ Hsplit) as [-> _].
    rewrite (parse_plain py_int cmd pre Hpre).
    cbn [MultiLoadFlare.parse_arguments]. rewrite Hnot, Hflag, Hdash. cbn [negb].
    rewrite (parse_plain_all py_int cmd post _ Hpost). reflexivity.
  - intros Hhead Hsplit.
    destruct (command_tasks_curl shlex_split py_int cmd n _ Hsplit) as [-> _].
    rewrite (parse_plain py_int cmd pre Hpre).
    cbn [MultiLoadFlare.parse_arguments]. rewrite Hnot, Hflag.
    destruct Hhead as [->|(t & post' & -> & Ht)].
    + cbn. now rewrite app_nil_r.
    + rewrite Ht. cbn [negb].
      rewrite (parse_plain_all py_int cmd (t :: post') _ Hpost). reflexivity.
Qed.

Lemma concurrency_flag_takes_next_token_witness :
  MultiLoadFlare.command_tasks sample_split sample_int 1 "curl -c http://h/x"
  = ([(["curl"], "curl -c http://h/x")],
     [WarnConcurrencyIgnored "-c" "curl -c http://h/x"]).
Proof.
  destruct (concurrency_flag_takes_next_token sample_split sample_int 1
              "curl -c http://h/x" [] "-c" [])
    as (Htake & _); [reflexivity | intros x [] |].
  rewrite (Htake "http://h/x"); reflexivity.
Defined.

(** X9: the check [if not final_curl_args] of [multi_load_flare.py] never
    fires: a command that passed the curl test keeps at least its first
    token, so "No valid curl command arguments found" is never printed. *)
Theorem no_argument_error_is_ever_printed (shlex_split : string -> option (list string))
    (py_int : string -> option Z) (subprocess_run : Z -> list string -> proc_outcome)
    (sched : nat -> nat) (cmds : list string) (n c : Z) (cmd : string) :
  ~ In (ErrNoValidArguments cmd)
       (printed (MultiLoadFlare.main shlex_split py_int subprocess_run sched cmds n c)).
Proof.
  assert (Hone : forall cmd',
             ~ In (ErrNoValidArguments cmd)
                  (snd (MultiLoadFlare.command_tasks shlex_split py_int n cmd'))).
  { intros cmd' Hin.
    destruct (shlex_split cmd') as [[|a0 tokens]|] eqn:Hsplit;
      try (unfold MultiLoadFlare.command_tasks in Hin; rewrite Hsplit in Hin;
           destruct Hin as [Hin|[]]; discriminate).
    destruct (String.eqb_spec a0 "curl") as [->|Hne].
    - destruct (command_tasks_curl shlex_split py_int cmd' n tokens Hsplit) as [Heq _].
      rewrite Heq in Hin. cbn [snd] in Hin.
      apply parse_no_argument_error in Hin. destruct Hin.
    - unfold MultiLoadFlare.command_tasks in Hin. rewrite Hsplit in Hin.
      destruct (String.eqb_spec a0 "curl") as [Heq|_]; [contradiction|].
      destruct Hin as [Hin|[]]; discriminate. }
  assert (Hall : ~ In (ErrNoValidArguments cmd)
                      (snd (MultiLoadFlare.all_commands shlex_split py_int n cmds))).
  { induction cmds as [|cmd' cmds' IH]; [intros []|].
    rewrite all_commands_cons. cbn [snd]. intros Hin.
    apply in_app_or in Hin as [Hin|Hin]; [now apply (Hone cmd')|now apply IH]. }
  unfold MultiLoadFlare.main.
  destruct (MultiLoadFlare.all_commands shlex_split py_int n cmds) as [tasks msgs].
  cbn [snd] in Hall. destruct tasks as [|t tasks].
  - cbn [printed]. intros Hin. apply in_app_or in Hin as [Hin|[Hin|[]]];
      [now apply Hall|discriminate].
  - destruct (ThreadPoolExecutor c); cbn [printed]; [|exact Hall].
    intros Hin. apply in_app_or in Hin as [Hin|Hin]; [now apply Hall|].
    clear -Hin. induction (as_completed sched _) as [|[r|e] l IH]; cbn in Hin.
    + destruct Hin.
    + now apply IH.
    + destruct Hin as [Hin|Hin]; [discriminate|now apply IH].
Qed.

(** X10: commands that start with curl and hold no [-n]/[--requests] each
    add the global count of tasks, so [m] such commands with [-n k] make
    [m * k] requests. *)
Theorem plain_commands_total (shlex_split : string -> option (list string))
    (py_int : string -> option Z) (n : Z) (cmds : list string) :
  0 <= n ->
  (forall cmd, In cmd cmds ->
     exists tokens, shlex_split cmd = Some ("curl" :: tokens)
       /\ forall x, In x tokens -> MultiLoadFlare.is_requests_flag x = false) ->
  Z.of_nat (List.length (fst (MultiLoadFlare.all_commands shlex_split py_int n cmds)))
  = Z.of_nat (List.length cmds) * n.
Proof.
  intros Hn. induction cmds as [|cmd cmds IH]; intros Hall; [reflexivity|].
  rewrite all_commands_cons. cbn [fst]. rewrite length_app, Nat2Z.inj_add.
  rewrite IH by (intros cmd' Hin; apply Hall; now right).
  destruct (Hall cmd (or_introl eq_refl)) as (tokens & Hsplit & Hplain).
  destruct (command_tasks_curl shlex_split py_int cmd n _ Hsplit) as [-> _].
  cbn [fst]. rewrite length_map, range_length.
  rewrite (parse_keeps_count py_int cmd tokens _ Hplain). cbn [List.length
    MultiLoadFlare.per_cmd_requests]. lia.
Qed.

Lemma plain_commands_total_witness :
  List.length (fst (MultiLoadFlare.all_commands sample_split sample_int 5
                      ["curl http://h/x"; "curl -c 2 http://h/y"])) = 10%nat.
Proof.
  apply Nat2Z.inj.
  rewrite (plain_commands_total sample_split sample_int 5
             ["curl http://h/x"; "curl -c 2 http://h/y"]); [reflexivity | lia |].
  intros cmd [<-|[<-|[]]].
  - exists ["http://h/x"]. split; [reflexivity|].
    intros x Hx; cbn in Hx; intuition (subst; reflexivity).
  - exists ["-c"; "2"; "http://h/y"]. split; [reflexivity|].
    intros x Hx; cbn in Hx; intuition (subst; reflexivity).
Defined.

(** ** Strings: append, reversal, strip and split *)

Lemma append_nil_r (s : string) : s ++ "" = s.
Proof. induction s as [|c s IH]; [reflexivity|]. cbn. now rewrite IH. Qed.

Lemma append_assoc (a b c : string) : (a ++ b) ++ c = a ++ (b ++ c).
Proof. induction a as [|x a IH]; [reflexivity|]. cbn. now rewrite IH. Qed.

Lemma length_append (a b : string) :
  String.length (a ++ b) = (String.length a + String.length b)%nat.
Proof. induction a as [|x a IH]; [reflexivity|]. cbn. now rewrite IH. Qed.

Lemma string_rev_onto_spec (s acc : string) :
  string_rev_onto s acc = string_rev s ++ acc.
Proof.
  revert acc. induction s as [|c s IH]; intros acc; [reflexivity|].
  unfold string_rev. cbn [string_rev_onto].
  rewrite (IH (String c acc)), (IH (String c "")), append_assoc. reflexivity.
Qed.

Lemma string_rev_cons (c : ascii) (s : string) :
  string_rev (String c s) = string_rev s ++ String c "".
Proof. unfold string_rev at 1. cbn [string_rev_onto]. apply string_rev_onto_spec. Qed.

Lemma string_rev_app (a b : string) :
  string_rev (a ++ b) = string_rev b ++ string_rev a.
Proof.
  induction a as [|c a IH]; [cbn; now rewrite append_nil_r|].
  cbn [append]. now rewrite !string_rev_cons, IH, append_assoc.
Qed.

Lemma string_rev_involutive (s : string) : string_rev (string_rev s) = s.
Proof.
  induction s as [|c s IH]; [reflexivity|].
  now rewrite string_rev_cons, string_rev_app, IH.
Qed.

Lemma digit_not_space (c : ascii) : is_digit c = true -> is_space c = false.
Proof.
  unfold is_digit, is_space. cbv zeta. intros H.
  apply andb_true_iff in H as [H1 H2].
  apply Nat.leb_le in H1. apply Nat.leb_le in H2.
  apply orb_false_iff. split; apply andb_false_iff.
  - right. apply Nat.leb_gt. lia.
  - right. apply Nat.leb_gt. lia.
Qed.

Lemma all_digits_app (a b : string) :
  all_digits (a ++ b) = all_digits a && all_digits b.
Proof.
  induction a as [|c a IH]; [reflexivity|].
  cbn [append all_digits]. now rewrite IH, andb_assoc.
Qed.

Lemma all_digits_rev (s : string) : all_digits (string_rev s) = all_digits s.
Proof.
  induction s as [|c s IH]; [reflexivity|].
  rewrite string_rev_cons, all_digits_app, IH. cbn [all_digits].
  rewrite andb_true_r. apply andb_comm.
Qed.

(** [lstrip] stops at the first character that is no white space. *)
Lemma lstrip_app (a : string) (c : ascii) (t : string) :
  is_space c = false -> lstrip (a ++ String c t) = lstrip a ++ String c t.
Proof.
  intros Hc. induction a as [|x a IH].
  - cbn. now rewrite Hc.
  - cbn [append lstrip]. destruct (is_space x); [exact IH|reflexivity].
Qed.

Lemma lstrip_digits (d : string) (t : string) :
  all_digits d = true ->
  (d <> "" \/ exists c t', t = String c t' /\ is_space c = false) ->
  lstrip (d ++ t) = d ++ t.
Proof.
  intros Hd Hne. destruct d as [|x d].
  - destruct Hne as [Hne|(c & t' & -> & Hc)]; [now elim Hne|].
    cbn. now rewrite Hc.
  - cbn [all_digits] in Hd. apply andb_true_iff in Hd as [Hx _].
    cbn [append lstrip]. now rewrite (digit_not_space x Hx).
Qed.

Lemma lstrip_idempotent (s : string) : lstrip (lstrip s) = lstrip s.
Proof.
  induction s as [|c s IH]; [reflexivity|].
  cbn [lstrip]. destruct (is_space c) eqn:Hc; [exact IH|].
  cbn [lstrip]. now rewrite Hc.
Qed.

(** [rstrip] leaves a text alone that ends in digits (or in digits after a
    character that is no white space). *)
Lemma rstrip_digits (s d : string) :
  all_digits d = true ->
  (d <> "" \/ exists s' c, s = s' ++ String c "" /\ is_space c = false) ->
  rstrip (s ++ d) = s ++ d.
Proof.
  intros Hd Hne. unfold rstrip. rewrite string_rev_app, lstrip_digits.
  - now rewrite <- string_rev_app, string_rev_involutive.
  - now rewrite all_digits_rev.
  - destruct Hne as [Hne|(s' & c & -> & Hc)].
    + left. intros Hrev. apply Hne.
      now rewrite <- (string_rev_involutive d), Hrev.
    + right. exists c, (string_rev s'). split; [|exact Hc].
      now rewrite string_rev_app.
Qed.

Lemma rstrip_newline (s : string) : rstrip (s ++ String newline "") = rstrip s.
Proof. unfold rstrip. rewrite string_rev_app. reflexivity. Qed.

Lemma substring_all (s : string) : substring 0 (String.length s) s = s.
Proof. induction s as [|c s IH]; [reflexivity|]. cbn. now rewrite IH. Qed.

Lemma substring_app_tail (a b : string) :
  substring (String.length a) (String.length b) (a ++ b) = b.
Proof. induction a as [|c a IH]; [apply substring_all|exact IH]. Qed.

Lemma substring_app_head (a b : string) :
  substring 0 (String.length a) (a ++ b) = a.
Proof.
  induction a as [|c a IH]; [now destruct b|]. cbn. now rewrite IH.
Qed.

Lemma split_on_nonempty (sep : ascii) (s : string) : split_on sep s <> [].
Proof.
  destruct s as [|c s]; [discriminate|]. cbn [split_on].
  destruct (Ascii.eqb c sep); [discriminate|].
  destruct (split_on sep s); discriminate.
Qed.


(** Text without separator goes to the end of the last line. *)
Lemma split_on_app_line (sep : ascii) (x y : string) :
  split_on sep y = [y] ->
  split_on sep (x ++ y)
  = (removelast (split_on sep x) ++ [(last (split_on sep x) "" ++ y)%string])%list.
Proof.
  intros Hy. induction x as [|c x IH]; [exact Hy|].
  cbn [append split_on]. rewrite IH.
  destruct (split_on sep x) as [|m0 ms] eqn:Hx; [now apply split_on_nonempty in Hx|].
  destruct (Ascii.eqb c sep).
  - reflexivity.
  - destruct ms as [|m1 ms']; reflexivity.
Qed.

Lemma split_on_free (sep : ascii) (s : string) :
  (forall c, In c (list_ascii_of_string s) -> Ascii.eqb c sep = false) ->
  split_on sep s = [s].
Proof.
  induction s as [|c s IH]; intros H; [reflexivity|].
  cbn [split_on]. rewrite (H c (or_introl eq_refl)).
  rewrite IH; [reflexivity|]. intros x Hx. apply H. now right.
Qed.

Lemma digits_newline_free (d : string) :
  all_digits d = true -> split_on newline d = [d].
Proof.
  intros Hd. apply split_on_free.
  induction d as [|x d IH]; intros c Hc; [destruct Hc|].
  cbn [all_digits] in Hd. apply andb_true_iff in Hd as [Hx Hd].
  destruct Hc as [<-|Hc]; [|now apply IH].
  destruct (Ascii.eqb_spec x newline) as [->|_]; [discriminate|reflexivity].
Qed.

Lemma fullmatch_of_all_digits (s : string) :
  fullmatch_digits s = (negb (s =? "")%string) && all_digits s.
Proof. now destruct s. Qed.

(** ** The status code in curl's output *)

(** What [strip] leaves of a body followed by the status code and the
    newline of curl's [-w] format. *)
Lemma strip_body_code (body code : string) :
  all_digits code = true -> code <> "" ->
  strip (body ++ code ++ String newline "") = lstrip body ++ code.
Proof.
  intros Hd Hne. unfold strip.
  destruct code as [|d code']; [now elim Hne|].
  assert (Hdigit : is_digit d = true)
    by (cbn [all_digits] in Hd; now apply andb_true_iff in Hd).
  cbn [append]. rewrite (lstrip_app body d _ (digit_not_space d Hdigit)).
  change (String d (code' ++ String newline ""))
    with (String d code' ++ String newline "").
  rewrite <- append_assoc, rstrip_newline.
  apply rstrip_digits; [exact Hd|left; discriminate].
Qed.

Lemma strip_body_char_code (b : string) (c : ascii) (code : string) :
  is_space c = false -> all_digits code = true ->
  strip (b ++ String c (code ++ String newline "")) = lstrip b ++ String c code.
Proof.
  intros Hc Hd. unfold strip. rewrite (lstrip_app b c _ Hc).
  change (String c (code ++ String newline ""))
    with (String c code ++ String newline "").
  rewrite <- append_assoc, rstrip_newline.
  change (String c code) with (String c "" ++ code).
  rewrite <- append_assoc. apply rstrip_digits; [exact Hd|].
  right. exists (lstrip b), c. split; [reflexivity|exact Hc].
Qed.


(** [multi_load_flare.py] on a body directly followed by a three-digit code
    and a newline. *)
Lemma multi_status_of_output (body code : string) :
  String.length code = 3%nat -> all_digits code = true ->
  MultiLoadFlare.http_status_code (body ++ code ++ String newline "")
  = Some (int_of_digits code)
  /\ MultiLoadFlare.actual_stdout (body ++ code ++ String newline "") = strip body.
Proof.
  intros Hlen Hd.
  assert (Hne : code <> "") by (intros ->; discriminate).
  unfold MultiLoadFlare.http_status_code, MultiLoadFlare.actual_stdout. cbv zeta.
  rewrite (strip_body_code body code Hd Hne), length_append, Hlen.
  replace (String.length (lstrip body) + 3 - 3)%nat
    with (String.length (lstrip body)) by lia.
  assert (Hle : (3 <=? String.length (lstrip body) + 3)%nat = true)
    by (apply Nat.leb_le; lia).
  assert (Htail : substring (String.length (lstrip body)) 3 (lstrip body ++ code) = code)
    by (rewrite <- Hlen; apply substring_app_tail).
  rewrite Hle, Htail, Hd, substring_app_head.
  split; [reflexivity|]. unfold strip. now rewrite lstrip_idempotent.
Qed.


(** [load_flare.py] on a status code glued to a body character that is
    neither a digit nor white space. *)
Lemma single_status_missed (b : string) (c : ascii) (code : string) :
  is_digit c = false -> is_space c = false -> all_digits code = true ->
  LoadFlare.http_status_code (b ++ String c (code ++ String newline "")) = None.
Proof.
  intros Hdigit Hspace Hd. unfold LoadFlare.http_status_code. cbv zeta.
  rewrite (strip_body_char_code b c code Hspace Hd). unfold split_lines.
  rewrite (split_on_app_line newline (lstrip b) (String c code)).
  - rewrite last_last, fullmatch_of_all_digits, all_digits_app.
    cbn [all_digits]. rewrite Hdigit. cbn [andb]. now rewrite !andb_false_r.
  - cbn [split_on]. rewrite (digits_newline_free code Hd).
    destruct (Ascii.eqb_spec c newline) as [->|_]; [discriminate|reflexivity].
Qed.

(** X11: from an output that is any body, then three digits and the
    newline of curl's [-w] format, [multi_load_flare.py] reads those three
    digits as the status code, whether or not the body ends in a newline, and
    prints the stripped body as the response. *)
Theorem multi_finds_trailing_status (body code : string) :
  String.length code = 3%nat -> all_digits code = true ->
  MultiLoadFlare.http_status_code (body ++ code ++ String newline "")
  = Some (int_of_digits code)
  /\ MultiLoadFlare.actual_stdout (body ++ code ++ String newline "") = strip body
  /\ forall a0 rest rc err,
       MultiLoadFlare.execute_curl
         (fun _ => Completed rc (body ++ code ++ String newline "") err) (a0 :: rest)
       = Ok (rc, Some (int_of_digits code)).
Proof.
  intros Hlen Hd. destruct (multi_status_of_output body code Hlen Hd) as [Hcode Hbody].
  split; [exact Hcode|]. split; [exact Hbody|].
  intros a0 rest rc err. unfold MultiLoadFlare.execute_curl.
  cbv zeta beta iota delta [MultiLoadFlare.modified_command_args].
  now rewrite Hcode.
Qed.

Lemma multi_finds_trailing_status_witness :
  MultiLoadFlare.http_status_code ("{a:1}404" ++ String newline "") = Some 404.
Proof.
  destruct (multi_finds_trailing_status "{a:1}" "404") as [Hcode _];
    [reflexivity | reflexivity | exact Hcode].
Defined.



(** X13: when the body does not end in a newline, and its last character is
    neither a digit nor white space, the last line of the output is that
    body text with the status code glued to it, and [load_flare.py] finds no
    status code: a request that exits with 0 is then counted as an other
    failure, whatever the server answered.  [multi_load_flare.py] reads the
    code from the same output. *)
Theorem single_misses_status_after_unterminated_body
    (b : string) (c : ascii) (code : string) :
  is_digit c = false -> is_space c = false ->
  String.length code = 3%nat -> all_digits code = true ->
  let stdout := b ++ String c (code ++ String newline "") in
  LoadFlare.http_status_code stdout = None
  /\ (forall cs a0 rest err,
        LoadFlare.collect cs
          (LoadFlare.execute_curl (fun _ => Completed 0 stdout err) (a0 :: rest))
        = bump OtherFailure cs)
  /\ MultiLoadFlare.http_status_code stdout = Some (int_of_digits code).
Proof.
  intros Hdigit Hspace Hlen Hd stdout. subst stdout.
  assert (Hnone := single_status_missed b c code Hdigit Hspace Hd).
  split; [exact Hnone|]. split.
  - intros cs a0 rest err. unfold LoadFlare.execute_curl.
    cbn [LoadFlare.modified_command_args]. rewrite Hnone. reflexivity.
  - change (b ++ String c (code ++ String newline ""))
      with (b ++ (String c "" ++ (code ++ String newline ""))).
    rewrite <- append_assoc.
    now destruct (multi_status_of_output (b ++ String c "") code Hlen Hd) as [-> _].
Qed.

Lemma single_misses_status_after_unterminated_body_witness :
  LoadFlare.http_status_code ("{a:1}200" ++ String newline "") = None
  /\ MultiLoadFlare.http_status_code ("{a:1}200" ++ String newline "") = Some 200.
Proof.
  destruct (single_misses_status_after_unterminated_body "{a:1" "}"%char "200")
    as (Hs & _ & Hm); try reflexivity.
  split; [exact Hs|exact Hm].
Defined.

Lemma digit_value (c : ascii) :
  is_digit c = true -> 0 <= Z.of_nat (nat_of_ascii c) - 48 <= 9.
Proof.
  unfold is_digit. cbv zeta. intros H. apply andb_true_iff in H as [H1 H2].
  apply Nat.leb_le in H1. apply Nat.leb_le in H2. lia.
Qed.

Lemma int_of_digits_from_bounds (s : string) :
  all_digits s = true ->
  forall acc, 0 <= acc ->
    acc * 10 ^ Z.of_nat (String.length s) <= int_of_digits_from acc s
    /\ int_of_digits_from acc s < (acc + 1) * 10 ^ Z.of_nat (String.length s).
Proof.
  induction s as [|c s IH]; intros Hd acc Hacc.
  - cbn. lia.
  - cbn [all_digits] in Hd. apply andb_true_iff in Hd as [Hc Hs].
    pose proof (digit_value c Hc) as Hv.
    cbn [int_of_digits_from String.length]. rewrite Nat2Z.inj_succ, Z.pow_succ_r by lia.
    destruct (IH Hs (10 * acc + (Z.of_nat (nat_of_ascii c) - 48))) as [Hlo Hhi]; [lia|].
    assert (Hpow : 0 < 10 ^ Z.of_nat (String.length s)) by (apply Z.pow_pos_nonneg; lia).
    split; nia.
Qed.

Lemma length_substring_le (n m : nat) (s : string) :
  (String.length (substring n m s) <= m)%nat.
Proof.
  revert n m. induction s as [|c s IH]; intros [|n] [|m]; cbn; try lia.
  - specialize (IH 0%nat m). lia.
  - apply IH.
  - apply IH.
Qed.

(** X14: a status code that [load_flare.py] extracts is never negative; one
    that [multi_load_flare.py] extracts lies between 0 and 999, since it is
    read from exactly three digits. *)
Theorem extracted_status_code_bounds (stdout : string) (code : Z) :
  (LoadFlare.http_status_code stdout = Some code -> 0 <= code)
  /\ (MultiLoadFlare.http_status_code stdout = Some code -> 0 <= code <= 999).
Proof.
  split.
  - unfold LoadFlare.http_status_code. cbv zeta.
    destruct (fullmatch_digits _) eqn:Hf; [|discriminate].
    intros [= <-]. rewrite fullmatch_of_all_digits in Hf.
    apply andb_true_iff in Hf as [_ Hd].
    destruct (int_of_digits_from_bounds _ Hd 0) as [Hlo _]; [lia|].
    unfold int_of_digits. lia.
  - unfold MultiLoadFlare.http_status_code. cbv zeta.
    destruct (3 <=? _)%nat; [|discriminate].
    destruct (all_digits _) eqn:Hd; [|discriminate].
    intros [= <-].
    destruct (int_of_digits_from_bounds _ Hd 0) as [Hlo Hhi]; [lia|].
    pose proof (length_substring_le (String.length (strip stdout) - 3) 3 (strip stdout))
      as Hlen.
    assert (Hpow : 10 ^ Z.of_nat (String.length
                     (substring (String.length (strip stdout) - 3) 3 (strip stdout)))
                   <= 10 ^ 3)
      by (apply Z.pow_le_mono_r; lia).
    unfold int_of_digits. lia.
Qed.

Lemma extracted_status_code_bounds_witness :
  MultiLoadFlare.http_status_code ("not found 404" ++ String newline "") = Some 404
  /\ 0 <= 404 <= 999.
Proof.
  split; [reflexivity|].
  apply (extracted_status_code_bounds ("not found 404" ++ String newline "") 404).
  reflexivity.
Defined.

Lemma bump_inj (k k' : outcome_class) (c : counters) : bump k c = bump k' c -> k = k'.
Proof.
  destruct k, k'; try reflexivity; unfold bump; intros H; injection H; lia.
Qed.

(** Cases of a report line against a counter: the lines are distinct
    constructors and a counter bumped in two different fields differs. *)
Ltac close_report :=
  cbn in *;
  repeat match goal with
         | |- _ <-> _ => split; intro
         | |- _ /\ _ => split
         | H : _ \/ _ |- _ => destruct H
         | H : False |- _ => destruct H
         | H : @eq log_line _ _ |- _ => discriminate H
         | H : @eq counters _ _ |- _ => solve [injection H; lia]
         end;
  auto; try reflexivity.

(** X15: how the per-request report and the final summary go together.  In
    [load_flare.py] a request is reported "Correct (HTTP OK/Redirect)"
    exactly when the summary counts it as a success.  In
    [multi_load_flare.py] the same holds for requests that exit with 0, and
    likewise for "Client Error" and "Server Error".  In both scripts a
    request reported as "Success (No HTTP Status Code found ...)" is counted
    among the other failures. *)
Theorem report_and_summary_agree (c : counters) (rc : Z) (status : option Z) :
  (In StatusCorrect (LoadFlare.response_status rc status)
   <-> LoadFlare.collect c (Ok (rc, status)) = bump Success c)
  /\ (rc = 0 ->
      (In StatusCorrect (MultiLoadFlare.response_status rc status)
       <-> MultiLoadFlare.collect c (Ok (rc, status)) = bump Success c)
      /\ (In StatusClientError (MultiLoadFlare.response_status rc status)
          <-> MultiLoadFlare.collect c (Ok (rc, status)) = bump ClientError c)
      /\ (In StatusServerError (MultiLoadFlare.response_status rc status)
          <-> MultiLoadFlare.collect c (Ok (rc, status)) = bump ServerError c))
  /\ (In StatusSuccessNoCode (LoadFlare.response_status rc status) ->
      LoadFlare.collect c (Ok (rc, status)) = bump OtherFailure c)
  /\ (In StatusSuccessNoCode (MultiLoadFlare.response_status rc status) ->
      MultiLoadFlare.collect c (Ok (rc, status)) = bump OtherFailure c).
Proof.
  unfold LoadFlare.response_status, LoadFlare.collect,
    MultiLoadFlare.response_status, MultiLoadFlare.collect.
  split; [|split; [|split]].
  - destruct (rc =? 0), status as [code|];
      try destruct ((200 <=? code) && (code <? 400));
      try destruct ((400 <=? code) && (code <? 500));
      try destruct ((500 <=? code) && (code <? 600));
      close_report.
  - intros ->. cbn [Z.eqb]. destruct status as [code|];
      try destruct ((200 <=? code) && (code <? 400));
      try destruct ((400 <=? code) && (code <? 500));
      try destruct ((500 <=? code) && (code <? 600));
      close_report.
  - destruct (rc =? 0), status as [code|];
      try destruct ((200 <=? code) && (code <? 400));
      try destruct ((400 <=? code) && (code <? 500));
      try destruct ((500 <=? code) && (code <? 600));
      intros H; close_report.
  - destruct (rc =? 0), status as [code|];
      try destruct ((200 <=? code) && (code <? 400));
      try destruct ((400 <=? code) && (code <? 500));
      try destruct ((500 <=? code) && (code <? 600));
      intros H; close_report.
Qed.

Lemma report_and_summary_agree_witness :
  MultiLoadFlare.collect zero_counters (Ok (0, Some 503)) = mkCounters 0 0 1 0
  /\ LoadFlare.collect zero_counters (Ok (0, None)) = mkCounters 0 0 0 1.
Proof.
  split.
  - destruct (report_and_summary_agree zero_counters 0 (Some 503))
      as (_ & Hm & _). destruct (Hm eq_refl) as (_ & _ & Hserver).
    apply Hserver. cbn. auto.
  - destruct (report_and_summary_agree zero_counters 0 None) as (_ & _ & Hs & _).
    apply Hs. cbn. auto.
Defined.

(** ** The printed response body *)

(** [sep.join(s.split(sep)) == s] *)
Lemma join_split_on (sep : ascii) (s : string) :
  join (String sep "") (split_on sep s) = s.
Proof.
  induction s as [|c s IH]; [reflexivity|].
  cbn [split_on]. destruct (Ascii.eqb_spec c sep) as [->|Hne].
  - destruct (split_on sep s) as [|l ls] eqn:Hs; [now apply split_on_nonempty in Hs|].
    cbn [join append]. f_equal. exact IH.
  - destruct (split_on sep s) as [|l ls] eqn:Hs; [now apply split_on_nonempty in Hs|].
    destruct ls as [|l' ls'].
    + cbn [join] in *. now rewrite IH.
    + cbn [join append] in *. now rewrite IH.
Qed.

Lemma join_snoc (sep : string) (l : list string) (x : string) :
  l <> [] -> join sep (l ++ [x])%list = join sep l ++ sep ++ x.
Proof.
  induction l as [|a l IH]; intros Hne; [now elim Hne|].
  destruct l as [|b l']; [reflexivity|].
  change (join sep ((a :: b :: l') ++ [x])%list)
    with (a ++ sep ++ join sep ((b :: l') ++ [x])%list).
  rewrite IH by discriminate.
  change (join sep (a :: b :: l')) with (a ++ sep ++ join sep (b :: l')).
  now rewrite !append_assoc.
Qed.

Lemma substring_cut (s : string) (n : nat) :
  (n <= String.length s)%nat ->
  substring 0 n s ++ substring n (String.length s - n) s = s.
Proof.
  revert n. induction s as [|c s IH]; intros [|n] Hn; cbn in *; try lia;
    try reflexivity.
  - now rewrite substring_all.
  - rewrite IH by lia. reflexivity.
Qed.

Lemma length_substring (n m : nat) (s : string) :
  (n + m <= String.length s)%nat -> String.length (substring n m s) = m.
Proof.
  revert n m. induction s as [|c s IH]; intros [|n] [|m] H; cbn in *; try lia;
    try (rewrite (IH 0%nat m) by lia; reflexivity); apply IH; lia.
Qed.

(** X16: the printed response body and the status code together make up the
    stripped output, so nothing of the response is lost.  In [load_flare.py]
    a found code is the last line, made of digits, and the body is the text
    before that line's newline.  In [multi_load_flare.py] a found code is the
    last three characters and the body is the text before them, stripped.
    When no code is found both print the whole stripped output. *)
Theorem body_and_status_make_up_output (stdout : string) :
  (forall code, LoadFlare.http_status_code stdout = Some code ->
     exists digits,
       all_digits digits = true /\ digits <> "" /\ int_of_digits digits = code
       /\ ((strip stdout = digits /\ LoadFlare.actual_stdout stdout = "")
           \/ strip stdout
              = LoadFlare.actual_stdout stdout ++ String newline "" ++ digits))
  /\ (LoadFlare.http_status_code stdout = None ->
      LoadFlare.actual_stdout stdout = strip stdout)
  /\ (forall code, MultiLoadFlare.http_status_code stdout = Some code ->
     exists before digits,
       strip stdout = before ++ digits
       /\ String.length digits = 3%nat /\ all_digits digits = true
       /\ int_of_digits digits = code
       /\ MultiLoadFlare.actual_stdout stdout = strip before)
  /\ (MultiLoadFlare.http_status_code stdout = None ->
      MultiLoadFlare.actual_stdout stdout = strip stdout).
Proof.
  split; [|split; [|split]].
  - intros code. unfold LoadFlare.http_status_code, LoadFlare.actual_stdout. cbv zeta.
    pose proof (join_split_on newline (strip stdout)) as Hjoin.
    fold (split_lines (strip stdout)) in Hjoin.
    destruct (split_lines (strip stdout)) as [|l0 ls] eqn:Hlines;
      [now apply split_on_nonempty in Hlines|].
    destruct (fullmatch_digits (last (l0 :: ls) "")) eqn:Hf; [|discriminate].
    intros [= <-]. exists (last (l0 :: ls) "").
    rewrite fullmatch_of_all_digits in Hf. apply andb_true_iff in Hf as [Hne Hd].
    split; [exact Hd|]. split.
    { intros Heq. rewrite Heq in Hne. discriminate. }
    split; [reflexivity|].
    assert (Hsplit : l0 :: ls = (removelast (l0 :: ls) ++ [last (l0 :: ls) ""])%list)
      by (apply app_removelast_last; discriminate).
    destruct (removelast (l0 :: ls)) as [|r0 rs] eqn:Hrl.
    + left. rewrite Hsplit in Hjoin. cbn [app join] in Hjoin. now split.
    + right. rewrite Hsplit in Hjoin at 1.
      rewrite join_snoc in Hjoin by discriminate. now symmetry.
  - unfold LoadFlare.http_status_code, LoadFlare.actual_stdout. cbv zeta.
    destruct (split_lines (strip stdout)) as [|l0 ls] eqn:Hlines;
      [now apply split_on_nonempty in Hlines|].
    destruct (fullmatch_digits (last (l0 :: ls) "")); [discriminate|reflexivity].
  - intros code. unfold MultiLoadFlare.http_status_code, MultiLoadFlare.actual_stdout.
    cbv zeta. destruct (Nat.leb_spec 3 (String.length (strip stdout))) as [Hle|_];
      [|discriminate].
    destruct (all_digits _) eqn:Hd; [|discriminate].
    intros [= <-].
    exists (substring 0 (String.length (strip stdout) - 3) (strip stdout)),
           (substring (String.length (strip stdout) - 3) 3 (strip stdout)).
    split; [|split; [apply length_substring; lia|now repeat split]].
    pose proof (substring_cut (strip stdout) (String.length (strip stdout) - 3)) as Hcut.
    replace (String.length (strip stdout) - (String.length (strip stdout) - 3))%nat
      with 3%nat in Hcut by lia.
    symmetry. apply Hcut. lia.
  - unfold MultiLoadFlare.http_status_code, MultiLoadFlare.actual_stdout. cbv zeta.
    destruct (3 <=? String.length (strip stdout))%nat; [|reflexivity].
    destruct (all_digits _); [discriminate|reflexivity].
Qed.

Lemma body_and_status_make_up_output_witness :
  exists digits,
    int_of_digits digits = 200
    /\ strip ("ok" ++ String newline "200" ++ String newline "")
       = LoadFlare.actual_stdout ("ok" ++ String newline "200" ++ String newline "")
         ++ String newline "" ++ digits.
Proof.
  destruct (body_and_status_make_up_output
              ("ok" ++ String newline "200" ++ String newline "")) as [Hs _].
  destruct (Hs 200 eq_refl) as (digits & _ & _ & Hint & [[Hstrip _]|Hstrip]).
  - exfalso. rewrite <- Hstrip in Hint. vm_compute in Hint. discriminate.
  - exists digits. split; assumption.
Defined.

(** ** The header of the multi-command run *)

Lemma dict_get_set (d : list (string * Z)) (k k' : string) (v default : Z) :
  dict_get (dict_set d k v) k' default
  = if (k =? k')%string then v else dict_get d k' default.
Proof.
  induction d as [|[k0 v0] rest IH]; [reflexivity|].
  cbn [dict_set dict_get]. destruct (String.eqb_spec k0 k) as [->|Hne].
  - cbn [dict_get]. now destruct (k =? k')%string.
  - cbn [dict_get]. rewrite IH.
    destruct (String.eqb_spec k0 k') as [->|Hne']; [|reflexivity].
    destruct (String.eqb_spec k k') as [->|_]; [now elim Hne|reflexivity].
Qed.

(** After the loop over the tasks the dictionary holds, for every command
    string, the number of tasks that carry it. *)
Lemma command_summary_counts_spec (tasks : list (list string * string)) (key : string) :
  dict_get (MultiLoadFlare.command_summary_counts tasks) key 0
  = Z.of_nat (count_occ string_dec (map snd tasks) key).
Proof.
  unfold MultiLoadFlare.command_summary_counts.
  enough (H : forall d,
             dict_get (fold_left
                         (fun d task => dict_set d (snd task) (dict_get d (snd task) 0 + 1))
                         tasks d) key 0
             = dict_get d key 0 + Z.of_nat (count_occ string_dec (map snd tasks) key))
    by (rewrite H; reflexivity).
  induction tasks as [|t tasks IH]; intros d; [cbn; lia|].
  cbn [fold_left map count_occ]. rewrite IH, dict_get_set.
  destruct (string_dec (snd t) key) as [->|Hne].
  - rewrite String.eqb_refl. lia.
  - destruct (String.eqb_spec (snd t) key) as [Heq|_]; [contradiction|reflexivity].
Qed.

Lemma count_occ_same_label (l : list (list string * string)) (label key : string) :
  (forall t, In t l -> snd t = label) ->
  count_occ string_dec (map snd l) key
  = if string_dec label key then List.length l else 0%nat.
Proof.
  intros Hl. induction l as [|t l IH]; [now destruct (string_dec label key)|].
  cbn [map count_occ List.length]. rewrite (Hl t (or_introl eq_refl)).
  rewrite IH by (intros t' Ht'; apply Hl; now right).
  now destruct (string_dec label key).
Qed.

Lemma count_tasks_of_command (shlex_split : string -> option (list string))
    (py_int : string -> option Z) (n : Z) (cmds : list string) (cmd : string) :
  count_occ string_dec
    (map snd (fst (MultiLoadFlare.all_commands shlex_split py_int n cmds))) cmd
  = (count_occ string_dec cmds cmd
     * List.length (fst (MultiLoadFlare.command_tasks shlex_split py_int n cmd)))%nat.
Proof.
  induction cmds as [|cmd' cmds IH]; [reflexivity|].
  rewrite all_commands_cons. cbn [fst count_occ].
  rewrite map_app, count_occ_app, IH.
  rewrite (count_occ_same_label _ cmd' cmd)
    by (intros t Ht; now destruct (command_tasks_shape _ _ _ _ _ Ht)).
  destruct (string_dec cmd' cmd) as [->|_]; lia.
Qed.

(** X17: the header lists every command of the command line once, in order
    and numbered from 1, and the count it shows for a command is the number
    of tasks that carry this command string.  The dictionary is keyed by the
    string, so a command that is given several times is shown each time with
    the tasks of all its copies together: its own number of tasks times the
    number of copies. *)
Theorem header_counts_tasks_by_command_string
    (shlex_split : string -> option (list string)) (py_int : string -> option Z)
    (n : Z) (cmds : list string) :
  let tasks := fst (MultiLoadFlare.all_commands shlex_split py_int n cmds) in
  let header := MultiLoadFlare.command_summary cmds tasks in
  map (fun line => snd (fst line)) header = cmds
  /\ map (fun line => fst (fst line)) header
     = range 1 (Z.of_nat (List.length cmds) + 1)
  /\ forall line, In line header ->
       snd line = Z.of_nat (count_occ string_dec (map snd tasks) (snd (fst line)))
       /\ snd line
          = Z.of_nat (count_occ string_dec cmds (snd (fst line)))
            * Z.of_nat (List.length
                (fst (MultiLoadFlare.command_tasks shlex_split py_int n (snd (fst line))))).
Proof.
  intros tasks header. subst header. unfold MultiLoadFlare.command_summary. cbv zeta.
  assert (Hlen : List.length (range 0 (Z.of_nat (List.length cmds))) = List.length cmds)
    by (rewrite range_length; lia).
  split; [|split].
  - rewrite map_map. cbn [fst snd].
    apply (map_snd_combine_eq (fun x : string => x) _ cmds) in Hlen.
    rewrite map_id in Hlen. exact Hlen.
  - rewrite map_map. cbn [fst snd].
    rewrite <- (map_map fst (fun i => i + 1)), (map_fst_combine_eq _ _ Hlen).
    unfold range. rewrite map_map.
    replace (Z.to_nat (Z.of_nat (List.length cmds) + 1 - 1))
      with (Z.to_nat (Z.of_nat (List.length cmds) - 0)) by lia.
    apply map_ext. intros i. lia.
  - intros line Hline. apply in_map_iff in Hline as ([i cmd] & <- & _).
    cbn [fst snd]. rewrite command_summary_counts_spec. split; [reflexivity|].
    subst tasks. rewrite count_tasks_of_command. lia.
Qed.

Lemma header_counts_tasks_by_command_string_witness :
  MultiLoadFlare.command_summary ["curl http://h/x -n 2"; "curl http://h/x -n 2"]
    (fst (MultiLoadFlare.all_commands sample_split sample_int 1
            ["curl http://h/x -n 2"; "curl http://h/x -n 2"]))
  = [(1, "curl http://h/x -n 2", 4); (2, "curl http://h/x -n 2", 4)].
Proof.
  destruct (header_counts_tasks_by_command_string sample_split sample_int 1
              ["curl http://h/x -n 2"; "curl http://h/x -n 2"]) as (Hcmds & Hnums & _).
  cbv zeta in Hcmds, Hnums.
  destruct (MultiLoadFlare.command_summary _ _) as [|[[i1 c1] n1] [|[[i2 c2] n2] rest]] eqn:E;
    try discriminate Hcmds.
  vm_compute in E. exact (eq_sym E).
Defined.

(** ** From the user's tokens to the command that runs *)

Lemma subseq_refl {A : Type} (l : list A) : subseq l l.
Proof. induction l; constructor; assumption. Qed.

Lemma subseq_nil_l {A : Type} (l : list A) : subseq [] l.
Proof. induction l; constructor; assumption. Qed.

Lemma subseq_trans {A : Type} (l1 l2 l3 : list A) :
  subseq l1 l2 -> subseq l2 l3 -> subseq l1 l3.
Proof.
  intros H12 H23. revert l1 H12.
  induction H23 as [|x l2 l3 _ IH|x l2 l3 _ IH]; intros l1 H12.
  - exact H12.
  - apply subseq_skip, IH, H12.
  - inversion H12 as [|y l l' H|y l l' H]; subst.
    + apply subseq_skip, IH, H.
    + apply subseq_keep, IH, H.
Qed.

Lemma subseq_app {A : Type} (l1 l1' l2 l2' : list A) :
  subseq l1 l1' -> subseq l2 l2' -> subseq (l1 ++ l2) (l1' ++ l2').
Proof.
  intros H1 H2. induction H1; cbn [app]; [exact H2| |]; constructor; assumption.
Qed.

Lemma subseq_In {A : Type} (l l' : list A) (x : A) :
  subseq l l' -> In x l -> In x l'.
Proof.
  intros H. induction H as [|y l l' _ IH|y l l' _ IH]; intros Hin.
  - exact Hin.
  - right. now apply IH.
  - destruct Hin as [<-|Hin]; [now left|right; now apply IH].
Qed.

(** The loop over a command's tokens only deletes. *)
Lemma parse_subseq (py_int : string -> option Z) (cmd : string) (args : list string) :
  forall st, exists kept,
    MultiLoadFlare.final_curl_args (MultiLoadFlare.parse_arguments py_int cmd args st)
    = (MultiLoadFlare.final_curl_args st ++ kept)%list
    /\ subseq kept args.
Proof.
  induction args as [|arg rest IH1 IH2] using list_ind2; intros st.
  - exists []. split; [now rewrite app_nil_r|constructor].
  - cbn [MultiLoadFlare.parse_arguments].
    assert (Hdrop1 : forall st',
               MultiLoadFlare.final_curl_args st' = MultiLoadFlare.final_curl_args st ->
               exists kept,
                 MultiLoadFlare.final_curl_args
                   (MultiLoadFlare.parse_arguments py_int cmd rest st')
                 = (MultiLoadFlare.final_curl_args st ++ kept)%list
                 /\ subseq kept (arg :: rest)).
    { intros st' Hst'. destruct (IH1 st') as (kept & Hf & Hsub).
      exists kept. rewrite Hf, Hst'. split; [reflexivity|now apply subseq_skip]. }
    assert (Hdrop2 : forall value rest' st',
               rest = value :: rest' ->
               MultiLoadFlare.final_curl_args st' = MultiLoadFlare.final_curl_args st ->
               exists kept,
                 MultiLoadFlare.final_curl_args
                   (MultiLoadFlare.parse_arguments py_int cmd rest' st')
                 = (MultiLoadFlare.final_curl_args st ++ kept)%list
                 /\ subseq kept (arg :: rest)).
    { intros value rest' st' -> Hst'. cbn [tl] in IH2.
      destruct (IH2 st') as (kept & Hf & Hsub).
      exists kept. rewrite Hf, Hst'.
      split; [reflexivity|now apply subseq_skip, subseq_skip]. }
    destruct (MultiLoadFlare.is_requests_flag arg).
    + destruct rest as [|value rest'] eqn:Hrest; [now apply Hdrop1|].
      destruct (py_int value); [now apply (Hdrop2 value rest')|now apply Hdrop1].
    + destruct (MultiLoadFlare.is_concurrency_flag arg).
      * destruct rest as [|value rest'] eqn:Hrest; [now apply Hdrop1|].
        destruct (negb (startswith_dash value));
          [now apply (Hdrop2 value rest')|now apply Hdrop1].
      * destruct (IH1 (MultiLoadFlare.mkParse (MultiLoadFlare.per_cmd_requests st)
                         (MultiLoadFlare.final_curl_args st ++ [arg])%list
                         (MultiLoadFlare.warnings st)))
          as (kept & Hf & Hsub).
        exists (arg :: kept). rewrite Hf. cbn [MultiLoadFlare.final_curl_args].
        rewrite <- app_assoc. split; [reflexivity|now apply subseq_keep].
Qed.

Lemma without_write_out_subseq (args : list string) :
  subseq (without_write_out args) args.
Proof.
  induction args as [|arg rest IH1 IH2] using list_ind2; [constructor|].
  cbn [without_write_out]. destruct (is_write_out_flag arg).
  - destruct rest as [|value rest']; [apply subseq_nil_l|].
    cbn [tl] in IH2. now apply subseq_skip, subseq_skip.
  - now apply subseq_keep.
Qed.

(** X18: what [multi_load_flare.py] hands to [subprocess.run] for a command
    is curl, then at most [-s] and [-L], then [-w] with its format, then
    tokens of the user's command in their order: the two passes over the
    tokens (the custom flags in [main], [-w] in [execute_curl]) delete
    tokens, and never add, change or reorder one.  None of the kept tokens
    is a custom flag or a write-out flag. *)
Theorem command_line_keeps_user_tokens_in_order
    (shlex_split : string -> option (list string)) (py_int : string -> option Z)
    (n : Z) (cmd : string) (tokens : list string) (task : list string * string) :
  shlex_split cmd = Some ("curl" :: tokens) ->
  In task (fst (MultiLoadFlare.command_tasks shlex_split py_int n cmd)) ->
  exists flags kept,
    MultiLoadFlare.modified_command_args (fst task)
    = Ok ("curl" :: flags ++ "-w" :: http_code_format :: kept)%list
    /\ subseq flags ["-s"; "-L"]
    /\ subseq kept tokens
    /\ forall x, In x kept ->
         MultiLoadFlare.is_requests_flag x = false
         /\ MultiLoadFlare.is_concurrency_flag x = false
         /\ is_write_out_flag x = false.
Proof.
  intros Hsplit Htask.
  destruct (command_tasks_curl shlex_split py_int cmd n tokens Hsplit)
    as [Heq (extra & Hfinal & Hextra)].
  rewrite Heq in Htask. cbn [fst] in Htask.
  apply in_map_iff in Htask as (i & <- & _). cbn [fst]. rewrite Hfinal.
  destruct (parse_subseq py_int cmd tokens (MultiLoadFlare.mkParse n ["curl"] []))
    as (kept0 & Hkept0 & Hsub0).
  rewrite Hfinal in Hkept0. cbn in Hkept0. injection Hkept0 as ->.
  exists ((if negb (contains "-s" ("curl" :: kept0))
              && negb (contains "--silent" ("curl" :: kept0)) then ["-s"] else [])
          ++ (if negb (contains "-L" ("curl" :: kept0))
                 && negb (contains "--location" ("curl" :: kept0)) then ["-L"] else []))%list,
         (without_write_out kept0).
  split; [|split; [|split]].
  - unfold MultiLoadFlare.modified_command_args. cbv zeta.
    rewrite (proj1 (copy_arguments_spec kept0 _)).
    destruct (negb (contains "-s" ("curl" :: kept0))
              && negb (contains "--silent" ("curl" :: kept0)));
      destruct (negb (contains "-L" ("curl" :: kept0))
                && negb (contains "--location" ("curl" :: kept0)));
      reflexivity.
  - destruct (negb (contains "-s" ("curl" :: kept0))
              && negb (contains "--silent" ("curl" :: kept0)));
      destruct (negb (contains "-L" ("curl" :: kept0))
                && negb (contains "--location" ("curl" :: kept0)));
      cbn [app];
      repeat first [apply subseq_keep | apply subseq_skip | apply subseq_nil].
  - eapply subseq_trans; [apply without_write_out_subseq|exact Hsub0].
  - intros x Hx.
    destruct (Hextra x (subseq_In _ _ x (without_write_out_subseq kept0) Hx)).
    destruct (without_write_out_no_flag kept0) as [Hno _].
    repeat split; auto.
Qed.

Lemma command_line_keeps_user_tokens_in_order_witness :
  exists flags kept,
    MultiLoadFlare.modified_command_args
      ["curl"; "-s"; "http://h/x"; "-H"; "a:b"]
    = Ok ("curl" :: flags ++ "-w" :: http_code_format :: kept)%list
    /\ subseq kept ["-s"; "-c"; "4"; "http://h/x"; "-w"; "%{json}"; "-H"; "a:b"].
Proof.
  destruct (command_line_keeps_user_tokens_in_order sample_split sample_int 1
              "curl -s -c 4 http://h/x -w %{json} -H a:b"
              ["-s"; "-c"; "4"; "http://h/x"; "-w"; "%{json}"; "-H"; "a:b"]
              (["curl"; "-s"; "http://h/x"; "-w"; "%{json}"; "-H"; "a:b"],
               "curl -s -c 4 http://h/x -w %{json} -H a:b"))
    as (flags & kept & Hargv & _ & Hsub & _); [reflexivity | now left |].
  exists flags, kept. split; [|exact Hsub].
  rewrite <- Hargv. reflexivity.
Defined.
